(** * PayQuick front end: advance eligibility, fees, step-up authentication,
      voucher purchase and toast notifications

    A shallow embedding of the business logic of [src/App.tsx]:
    - [calculateFee], [handleSubmit], [processAdvance] and the biometric
      modal wiring of the [AdvanceRequest] component,
    - [handleBiometric] of the [BiometricAuth] component,
    - [calculateEarnedToDate] and [available] of the [Dashboard] component,
    - [handlePurchase] and [filteredVouchers] of the [VoucherMarketplace]
      component,
    - the percentage of the [WellnessHub] component,
    - [addNotification], [removeNotification], [login], [logout] and the
      choice of the screen of [App],
    - the [ApiService] class with its mock fallback.

    React state is modelled by explicit state passing: one record holds the
    [useState] cells the modelled handlers read or write, the pending
    [setTimeout] callbacks, and the millisecond clock read by [Date.now()].
    Time passes in steps of one millisecond, and a callback runs in the
    step in which it falls due.

    JavaScript numbers are modelled as exact rationals extended with [NaN]
    (the result of [parseFloat] on a string without digits). Rounding of
    binary64 arithmetic and the infinities are outside the model. *)

From Stdlib Require Import ZArith QArith Qminmax Lqa Lia String Ascii List.
From stdpp Require Import base decidable list strings pretty.
From Stdlib Require Import Sorted.
Import ListNotations.

Local Open Scope Z_scope.

(** ** JavaScript numbers *)

Inductive number : Type :=
| NaN
| Num (q : Q).

(** [a + b] *)
Definition num_add (a b : number) : number :=
  match a, b with
  | Num x, Num y => Num (x + y)
  | _, _ => NaN
  end.

(** [a * b] *)
Definition num_mul (a b : number) : number :=
  match a, b with
  | Num x, Num y => Num (x * y)
  | _, _ => NaN
  end.

(** [Math.min(a, b)]: [NaN] as soon as one argument is [NaN]. *)
Definition Math_min (a b : number) : number :=
  match a, b with
  | Num x, Num y => Num (Qmin x y)
  | _, _ => NaN
  end.

(** [a <= b]: every comparison with [NaN] is false. *)
Definition num_leb (a b : number) : bool :=
  match a, b with
  | Num x, Num y => Qle_bool x y
  | _, _ => false
  end.

(** Equality of numbers up to the representation of the rational. *)
Definition num_eq (a b : number) : Prop :=
  match a, b with
  | NaN, NaN => True
  | Num x, Num y => (x == y)%Q
  | _, _ => False
  end.

(** Truthiness of a rational number, as used by [||]: [0] is falsy. *)
Definition truthy (q : Q) : bool := negb (Qeq_bool q 0).

(** ** [parseFloat]

    The longest prefix of the trimmed string that is a decimal literal:
    an optional sign, digits with an optional fraction (or a fraction
    alone), and an optional exponent. No digits at all gives [NaN]. Only
    the white space of ASCII is trimmed, and the literal [Infinity] is not
    read; a number input yields neither. The value is the exact rational
    of the literal, where JavaScript rounds it to a binary64 number. *)

Definition isWhiteSpace (c : ascii) : bool :=
  let n := N_of_ascii c in
  (n =? 32)%N || ((9 <=? n)%N && (n <=? 13)%N).

Definition digitValue (c : ascii) : option Z :=
  let n := N_of_ascii c in
  if ((48 <=? n)%N && (n <=? 57)%N)%bool then Some (Z.of_N n - 48) else None.

Fixpoint skipWhiteSpace (s : string) : string :=
  match s with
  | String c s' => if isWhiteSpace c then skipWhiteSpace s' else s
  | EmptyString => s
  end.

(** Reads a run of decimal digits: the value read so far, the number of
    digits read, and the rest of the string. *)
Fixpoint readDigits (s : string) (acc n : Z) : Z * Z * string :=
  match s with
  | String c s' =>
      match digitValue c with
      | Some d => readDigits s' (10 * acc + d) (n + 1)
      | None => (acc, n, s)
      end
  | EmptyString => (acc, n, s)
  end.

Definition readSign (s : string) : Z * string :=
  match s with
  | String "-" s' => (-1, s')
  | String "+" s' => (1, s')
  | _ => (1, s)
  end.

(** The exponent part, [0] when there is none or when it has no digit. *)
Definition readExponent (s : string) : Z :=
  match s with
  | String c s' =>
      if (Ascii.eqb c "e" || Ascii.eqb c "E")%bool then
        let '(sg, s1) := readSign s' in
        let '(e, n, _) := readDigits s1 0 0 in
        if n =? 0 then 0 else sg * e
      else 0
  | EmptyString => 0
  end.

Definition parseFloat (s : string) : number :=
  let '(sg, s1) := readSign (skipWhiteSpace s) in
  let '(ip, ni, s2) := readDigits s1 0 0 in
  let '(fp, nf, s3) :=
    match s2 with
    | String "." s' => readDigits s' 0 0
    | _ => (0, 0, s2)
    end in
  if ni + nf =? 0 then NaN
  else Num (inject_Z sg * (inject_Z ip + inject_Z fp / inject_Z (10 ^ nf))
            * Qpower 10 (readExponent s3))%Q.

(** ** Types *)

Inductive PaymentMethod := instant | eft | ewallet.

Module User.
Record t := {
  id : string;
  name : string;
  phone : string;
  employerId : string;
  email : string;
  hourlyRate : Q;
  startDate : string;
  isFullTime : bool;
  biometricEnabled : bool;
  preferredPaymentMethod : PaymentMethod;
  wellnessScore : option Q
}.
End User.

Module FeeStructure.
Record t := { flat : Q; percentage : Q; max : Q }.
End FeeStructure.

Module Employer.
Record t := {
  id : string;
  code : string;
  name : string;
  payrollDay : Q;
  advanceCap : Q;
  feeStructure : FeeStructure.t
}.
End Employer.

Module VoucherPurchase.
Record t := { voucherId : string; code : string; expiryDate : string }.
End VoucherPurchase.

Inductive TransactionType := advance | repayment | voucher.
Inductive TransactionStatus := pending | approved | completed | failed.

Module Transaction.
Record t := {
  id : string;
  userId : string;
  amount : Q;
  fee : Q;
  type : TransactionType;
  status : TransactionStatus;
  date : string;
  paymentMethod : string;
  voucherDetails : option VoucherPurchase.t
}.
End Transaction.

Inductive VoucherCategory := mobile | utility | retail.

Module Voucher.
Record t := {
  id : string;
  category : VoucherCategory;
  provider : string;
  name : string;
  amount : Q;
  price : Q;
  discount : Q;
  stock : Z
}.
End Voucher.

Inductive NotificationType := success | error | info | warning.

(** The text of a notification. The two template literals of the modelled
    handlers are kept as data, with their interpolated values unformatted:
    [`Advance of R${amt} approved! Fee: R${fee.toFixed(2)}`] and
    [`${voucher.name} purchased successfully! ...`]. *)
Inductive Message :=
| Text (s : string)
| AdvanceApproved (amt fee : number)
| VoucherPurchased (name : string).

Module Notification.
Record t := {
  id : string;
  type : NotificationType;
  message : Message;
  timestamp : Z;
  read : bool
}.
End Notification.

(** ** Mock data *)

Definition techCorp : Employer.t :=
  {| Employer.id := "1"; Employer.code := "TECH001"; Employer.name := "TechCorp SA";
     Employer.payrollDay := 25; Employer.advanceCap := 25 # 100;
     Employer.feeStructure :=
       {| FeeStructure.flat := 25; FeeStructure.percentage := 1 # 100;
          FeeStructure.max := 60 |} |}.

Definition retailHub : Employer.t :=
  {| Employer.id := "2"; Employer.code := "RETAIL99"; Employer.name := "RetailHub";
     Employer.payrollDay := 30; Employer.advanceCap := 30 # 100;
     Employer.feeStructure :=
       {| FeeStructure.flat := 20; FeeStructure.percentage := 15 # 1000;
          FeeStructure.max := 50 |} |}.

Definition healthCarePlus : Employer.t :=
  {| Employer.id := "3"; Employer.code := "HEALTH01"; Employer.name := "HealthCare Plus";
     Employer.payrollDay := 15; Employer.advanceCap := 20 # 100;
     Employer.feeStructure :=
       {| FeeStructure.flat := 30; FeeStructure.percentage := 5 # 1000;
          FeeStructure.max := 70 |} |}.

Definition mockEmployers : list Employer.t := [techCorp; retailHub; healthCarePlus].

Definition thabo : User.t :=
  {| User.id := "1"; User.name := "Thabo Mbeki"; User.phone := "0821234567";
     User.employerId := "1"; User.email := "thabo@example.com";
     User.hourlyRate := 150; User.startDate := "2023-01-15";
     User.isFullTime := true; User.biometricEnabled := true;
     User.preferredPaymentMethod := instant; User.wellnessScore := Some 750%Q |}.

Definition sarah : User.t :=
  {| User.id := "2"; User.name := "Sarah van der Merwe"; User.phone := "0827654321";
     User.employerId := "2"; User.email := "sarah@example.com";
     User.hourlyRate := 120; User.startDate := "2023-03-01";
     User.isFullTime := true; User.biometricEnabled := false;
     User.preferredPaymentMethod := eft; User.wellnessScore := Some 680%Q |}.

Definition mockUsers : list User.t := [thabo; sarah].

(** [mockEmployers.find(e => e.id === user?.employerId)] *)
Definition findEmployer (employers : list Employer.t) (user : option User.t)
  : option Employer.t :=
  match user with
  | Some u => List.find (fun e => String.eqb (Employer.id e) (User.employerId u)) employers
  | None => None
  end.

(** ** Fee computation ([AdvanceRequest]) *)

Definition calculateFee (employer : option Employer.t) (amt : number) : number :=
  match employer with
  | None => Num 0
  | Some e =>
      let fs := Employer.feeStructure e in
      let calculated :=
        num_add (Num (FeeStructure.flat fs))
                (num_mul amt (Num (FeeStructure.percentage fs))) in
      Math_min calculated (Num (FeeStructure.max fs))
  end.

Definition mockTransactions : list Transaction.t := [
  {| Transaction.id := "1"; Transaction.userId := "1"; Transaction.amount := 500;
     Transaction.fee := 30; Transaction.type := advance;
     Transaction.status := completed; Transaction.date := "2024-01-15";
     Transaction.paymentMethod := "instant"; Transaction.voucherDetails := None |};
  {| Transaction.id := "2"; Transaction.userId := "1"; Transaction.amount := 50;
     Transaction.fee := 0; Transaction.type := voucher;
     Transaction.status := completed; Transaction.date := "2024-01-20";
     Transaction.paymentMethod := "instant";
     Transaction.voucherDetails :=
       Some {| VoucherPurchase.voucherId := "1"; VoucherPurchase.code := "VOD-123-456";
               VoucherPurchase.expiryDate := "2024-12-31" |} |}
].

Definition mkVoucher (i : string) (c : VoucherCategory) (p n : string)
    (a pr d : Q) (st : Z) : Voucher.t :=
  {| Voucher.id := i; Voucher.category := c; Voucher.provider := p;
     Voucher.name := n; Voucher.amount := a; Voucher.price := pr;
     Voucher.discount := d; Voucher.stock := st |}.

Definition vodacomAirtime : Voucher.t :=
  mkVoucher "1" mobile "Vodacom" "R50 Airtime" 50 48 4 100.

Definition mtnDataBundle : Voucher.t :=
  mkVoucher "2" mobile "MTN" "1GB Data Bundle" 100 95 5 50.

Definition mockVouchers : list Voucher.t := [
  vodacomAirtime;
  mtnDataBundle;
  mkVoucher "3" mobile "Telkom" "R100 Airtime" 100 96 4 75;
  mkVoucher "4" utility "Eskom" "R250 Electricity" 250 250 0 200;
  mkVoucher "5" utility "City Power" "R500 Prepaid" 500 500 0 150;
  mkVoucher "6" retail "Checkers" "R200 Grocery Voucher" 200 190 5 80;
  mkVoucher "7" retail "Pick n Pay" "R300 Shopping Voucher" 300 285 5 60;
  mkVoucher "8" retail "Woolworths" "R500 Gift Card" 500 475 5 40
].

(** ** Application state

    [now] is the value [Date.now()] returns, in milliseconds. [timers] are
    the callbacks registered with [setTimeout] that have not run yet, in
    registration order. [activeTab] is the tab of [App]; the
    [AdvanceRequest] screen is mounted while it is [TabAdvance], and
    [advanceInstance] numbers the instances of that screen. [amount],
    [paymentMethod] and [showBiometric] are the cells of the mounted
    instance and [scanning] is the cell of the [BiometricAuth] modal it
    mounts; while the screen is not mounted they hold the values a fresh
    instance starts with. [vouchers] and [transactions] are the module-level
    arrays [mockVouchers] and [mockTransactions].

    The state follows what a signed-in user who is not an administrator
    sees; the session itself, with signing in and out, is the record
    [App.t] further down. *)

Inductive Tab :=
| TabDashboard | TabAdvance | TabVouchers | TabHistory | TabWellness | TabSettings.

Definition Tab_eqb (a b : Tab) : bool :=
  match a, b with
  | TabDashboard, TabDashboard | TabAdvance, TabAdvance
  | TabVouchers, TabVouchers | TabHistory, TabHistory
  | TabWellness, TabWellness | TabSettings, TabSettings => true
  | _, _ => false
  end.

(** A callback waiting in the timer queue.
    - [RemoveNotification id] is [() => removeNotification(notif.id)],
      registered by [addNotification].
    - [ScanDone instance amount] is
      [() => { setScanning(false); onSuccess(); }], registered by
      [handleBiometric]. Its [onSuccess] belongs to the render of the
      [AdvanceRequest] instance current at the click, and the
      [processAdvance] of that render reads the [amount] of that render. *)
Inductive Callback :=
| RemoveNotification (id : string)
| ScanDone (instance : N) (amount : string).

Record Timer := { due : Z; callback : Callback }.

Record State := {
  now : Z;
  notifications : list Notification.t;
  timers : list Timer;
  activeTab : Tab;
  advanceInstance : N;
  amount : string;
  paymentMethod : PaymentMethod;
  showBiometric : bool;
  scanning : bool;
  vouchers : list Voucher.t;
  transactions : list Transaction.t
}.

Definition setNow (t : Z) (s : State) : State :=
  {| now := t;
     notifications := notifications s;
     timers := timers s;
     activeTab := activeTab s;
     advanceInstance := advanceInstance s;
     amount := amount s;
     paymentMethod := paymentMethod s;
     showBiometric := showBiometric s;
     scanning := scanning s;
     vouchers := vouchers s;
     transactions := transactions s |}.

Definition setNotifications (f : list Notification.t -> list Notification.t)
    (s : State) : State :=
  {| now := now s;
     notifications := f (notifications s);
     timers := timers s;
     activeTab := activeTab s;
     advanceInstance := advanceInstance s;
     amount := amount s;
     paymentMethod := paymentMethod s;
     showBiometric := showBiometric s;
     scanning := scanning s;
     vouchers := vouchers s;
     transactions := transactions s |}.

Definition setTimers (l : list Timer) (s : State) : State :=
  {| now := now s;
     notifications := notifications s;
     timers := l;
     activeTab := activeTab s;
     advanceInstance := advanceInstance s;
     amount := amount s;
     paymentMethod := paymentMethod s;
     showBiometric := showBiometric s;
     scanning := scanning s;
     vouchers := vouchers s;
     transactions := transactions s |}.

Definition setAmount (v : string) (s : State) : State :=
  {| now := now s;
     notifications := notifications s;
     timers := timers s;
     activeTab := activeTab s;
     advanceInstance := advanceInstance s;
     amount := v;
     paymentMethod := paymentMethod s;
     showBiometric := showBiometric s;
     scanning := scanning s;
     vouchers := vouchers s;
     transactions := transactions s |}.

Definition setPaymentMethod (p : PaymentMethod) (s : State) : State :=
  {| now := now s;
     notifications := notifications s;
     timers := timers s;
     activeTab := activeTab s;
     advanceInstance := advanceInstance s;
     amount := amount s;
     paymentMethod := p;
     showBiometric := showBiometric s;
     scanning := scanning s;
     vouchers := vouchers s;
     transactions := transactions s |}.

Definition setScanning (b : bool) (s : State) : State :=
  {| now := now s;
     notifications := notifications s;
     timers := timers s;
     activeTab := activeTab s;
     advanceInstance := advanceInstance s;
     amount := amount s;
     paymentMethod := paymentMethod s;
     showBiometric := showBiometric s;
     scanning := b;
     vouchers := vouchers s;
     transactions := transactions s |}.

(** The modal is mounted while [showBiometric] holds: its [scanning] cell
    starts at [false] on mount and is lost on unmount. *)
Definition setShowBiometric (b : bool) (s : State) : State :=
  {| now := now s;
     notifications := notifications s;
     timers := timers s;
     activeTab := activeTab s;
     advanceInstance := advanceInstance s;
     amount := amount s;
     paymentMethod := paymentMethod s;
     showBiometric := b;
     scanning := b && showBiometric s && scanning s;
     vouchers := vouchers s;
     transactions := transactions s |}.

(** [setActiveTab(tab)] with a tab other than the current one: the screen
    of the old tab is unmounted and its cells are lost, and a fresh instance
    of the screen of the new tab is mounted. *)
Definition setActiveTab (tab : Tab) (s : State) : State :=
  {| now := now s;
     notifications := notifications s;
     timers := timers s;
     activeTab := tab;
     advanceInstance := N.succ (advanceInstance s);
     amount := "";
     paymentMethod := instant;
     showBiometric := false;
     scanning := false;
     vouchers := vouchers s;
     transactions := transactions s |}.

(** A state setter called from a closure of instance [i] of
    [AdvanceRequest]: it does nothing once that instance is unmounted. *)
Definition ofInstance (i : N) (set : State -> State) (s : State) : State :=
  if (i =? advanceInstance s)%N then set s else s.

(** [setTimeout(cb, delay)] *)
Definition setTimeout (cb : Callback) (delay : Z) (s : State) : State :=
  setTimers (timers s ++ [{| due := now s + delay; callback := cb |}]) s.

(** ** Toast notifications ([App]) *)

Definition Date_now (s : State) : Z := now s.

(** The source reads [Date.now()] twice, for [id] and for [timestamp]; the
    two readings are taken to fall in the same millisecond, as the whole of
    a handler does. *)
Definition newNotification (ty : NotificationType) (msg : Message) (s : State)
  : Notification.t :=
  {| Notification.id := pretty (Date_now s);
     Notification.type := ty;
     Notification.message := msg;
     Notification.timestamp := Date_now s;
     Notification.read := false |}.

Definition removeNotification (id : string) (s : State) : State :=
  setNotifications
    (List.filter (fun n => negb (String.eqb (Notification.id n) id))) s.

Definition addNotification (ty : NotificationType) (msg : Message) (s : State)
  : State :=
  let notif := newNotification ty msg s in
  let s1 := setNotifications (fun prev => prev ++ [notif]) s in
  setTimeout (RemoveNotification (Notification.id notif)) 5000 s1.

(** ** Voucher purchase ([VoucherMarketplace]) *)

Definition handlePurchase (v : Voucher.t) (s : State) : State :=
  addNotification success (VoucherPurchased (Voucher.name v)) s.

(** ** Advance request ([AdvanceRequest] and [BiometricAuth]) *)

Section Session.

(** The signed-in user of [AuthContext], and the employer found for it
    in [mockEmployers]. *)
Variable user : option User.t.
Variable employer : option Employer.t.

Definition handlePresetAmount (preset : Z) (s : State) : State :=
  setAmount (pretty preset) s.

(** [processAdvance] as bound in a render of instance [i] whose [amount]
    is [amt_text]. *)
Definition processAdvance (i : N) (amt_text : string) (s : State) : State :=
  let amt := parseFloat amt_text in
  let fee := calculateFee employer amt in
  ofInstance i (setAmount "")
    (addNotification success (AdvanceApproved amt fee) s).

(** [user?.biometricEnabled] *)
Definition biometricEnabled : bool :=
  match user with
  | Some u => User.biometricEnabled u
  | None => false
  end.

Definition handleSubmit (s : State) : State :=
  if biometricEnabled then setShowBiometric true s
  else processAdvance (advanceInstance s) (amount s) s.

(** [disabled={!amount || parseFloat(amount) <= 0}] of the request button *)
Definition submitDisabled (s : State) : bool :=
  String.eqb (amount s) "" || num_leb (parseFloat (amount s)) (Num 0).

(** The fee line of the preview, rendered when [amount] is not empty. *)
Definition feePreview (s : State) : option number :=
  if String.eqb (amount s) "" then None
  else Some (calculateFee employer (parseFloat (amount s))).

(** The [onSuccess] and [onCancel] props handed to [BiometricAuth] by a
    render of instance [i] whose [amount] is [amt_text]. *)
Definition onSuccess (i : N) (amt_text : string) (s : State) : State :=
  processAdvance i amt_text (ofInstance i (setShowBiometric false) s).

Definition onCancel (s : State) : State := setShowBiometric false s.

Definition handleBiometric (s : State) : State :=
  setTimeout (ScanDone (advanceInstance s) (amount s)) 2000 (setScanning true s).

(** ** Timers and user events *)

Definition runCallback (cb : Callback) (s : State) : State :=
  match cb with
  | RemoveNotification id => removeNotification id s
  | ScanDone i amt_text =>
      onSuccess i amt_text (ofInstance i (setScanning false) s)
  end.

Definition isDue (t : Z) (tm : Timer) : bool := due tm <=? t.

(** One millisecond passes: the clock advances and the callbacks that are
    due run, in registration order. *)
Definition tick (s : State) : State :=
  let t := now s + 1 in
  let ready := List.filter (isDue t) (timers s) in
  let waiting := List.filter (fun tm => negb (isDue t tm)) (timers s) in
  fold_left (fun acc tm => runCallback (callback tm) acc) ready
            (setTimers waiting (setNow t s)).

Definition elapse (ms : N) (s : State) : State := N.iter ms tick s.

(** What the user can do. A click on a control that is not rendered, or
    that is rendered disabled, does nothing. *)
Inductive Event :=
| ClickTab (tab : Tab)
| ChangeAmount (value : string)
| ClickPreset (preset : Z)
| SelectPayment (p : PaymentMethod)
| ClickRequestAdvance
| ClickScan
| ClickCancel
| ClickBuyNow (v : Voucher.t)
| ClickToast (id : string)
| Elapse (ms : N).

(** The [AdvanceRequest] screen is rendered. *)
Definition onAdvance (s : State) : bool := Tab_eqb (activeTab s) TabAdvance.

(** The [VoucherMarketplace] screen is rendered. *)
Definition onVouchers (s : State) : bool := Tab_eqb (activeTab s) TabVouchers.

Definition step (s : State) (e : Event) : State :=
  match e with
  | ClickTab tab => if Tab_eqb tab (activeTab s) then s else setActiveTab tab s
  | ChangeAmount v => if onAdvance s then setAmount v s else s
  | ClickPreset p => if onAdvance s then handlePresetAmount p s else s
  | SelectPayment p => if onAdvance s then setPaymentMethod p s else s
  | ClickRequestAdvance =>
      if onAdvance s && negb (submitDisabled s) then handleSubmit s else s
  | ClickScan =>
      if onAdvance s && showBiometric s && negb (scanning s)
      then handleBiometric s else s
  | ClickCancel => if onAdvance s && showBiometric s then onCancel s else s
  | ClickBuyNow v => if onVouchers s then handlePurchase v s else s
  | ClickToast id => removeNotification id s
  | Elapse ms => elapse ms s
  end.

Definition run (events : list Event) (s : State) : State :=
  fold_left step events s.

End Session.

(** The state in which the session starts at time [t0]. *)
Definition initialState (t0 : Z) : State :=
  {| now := t0; notifications := []; timers := [];
     activeTab := TabDashboard; advanceInstance := 0;
     amount := ""; paymentMethod := instant;
     showBiometric := false; scanning := false;
     vouchers := mockVouchers; transactions := mockTransactions |}.

(** ** Dates and earned wages ([Dashboard]) *)

Definition msPerDay : Z := 1000 * 60 * 60 * 24.

Module JsDate.

(** A [Date] object, by its fields in local time; [msOfDay] gathers the
    hours, minutes, seconds and milliseconds. *)
Record t := { getFullYear : Z; getMonth : Z; getDate : Z; msOfDay : Z }.

Definition wellFormed (d : t) : Prop :=
  0 <= getMonth d <= 11 /\ 1 <= getDate d <= 31 /\ 0 <= msOfDay d < msPerDay.

(** Day number of the first day of year [y], counted from 1 January 1970. *)
Definition dayFromYear (y : Z) : Z :=
  365 * (y - 1970) + (y - 1969) / 4 - (y - 1901) / 100 + (y - 1601) / 400.

Definition inLeapYear (y : Z) : bool :=
  ((y mod 4 =? 0) && negb (y mod 100 =? 0)) || (y mod 400 =? 0).

(** Days of the year before month [m] (0 is January). *)
Definition daysBeforeMonth (leap : bool) (m : Z) : Z :=
  let l := if leap then 1 else 0 in
  match m with
  | 0 => 0
  | 1 => 31
  | 2 => 59 + l
  | 3 => 90 + l
  | 4 => 120 + l
  | 5 => 151 + l
  | 6 => 181 + l
  | 7 => 212 + l
  | 8 => 243 + l
  | 9 => 273 + l
  | 10 => 304 + l
  | _ => 334 + l
  end.

Definition makeDay (y m d : Z) : Z :=
  dayFromYear y + daysBeforeMonth (inLeapYear y) m + d - 1.

(** [getTime()] of a date at which the local time of the host is
    [utcOffset] milliseconds ahead of UTC. The offset belongs to the date:
    where daylight saving applies, two dates of one month can have
    different offsets. *)
Definition getTime (utcOffset : Z) (d : t) : Z :=
  makeDay (getFullYear d) (getMonth d) (getDate d) * msPerDay
  + msOfDay d - utcOffset.

(** [new Date(year, month, day)]: local midnight of that day. *)
Definition make (y m d : Z) : t :=
  {| getFullYear := y; getMonth := m; getDate := d; msOfDay := 0 |}.

End JsDate.

Section Dashboard.

Variable utcOffset : Z.
Variable user : option User.t.
Variable employer : option Employer.t.

(** [today] is the value of [new Date()]. One offset [utcOffset] serves
    for [today] and for the start of the month: the clocks have not
    changed since the month began. [calculateEarnedToDateAcross] below does
    without this. *)
Definition calculateEarnedToDate (today : JsDate.t) : Q :=
  match user with
  | None => 0%Q
  | Some u =>
      let startOfMonth :=
        JsDate.make (JsDate.getFullYear today) (JsDate.getMonth today) 1 in
      let workingDays :=
        (JsDate.getTime utcOffset today - JsDate.getTime utcOffset startOfMonth)
        / msPerDay in
      (inject_Z workingDays * 8 * User.hourlyRate u)%Q
  end.

(** [employer?.advanceCap || 0.25] *)
Definition advanceCapOrDefault : Q :=
  match employer with
  | Some e => if truthy (Employer.advanceCap e) then Employer.advanceCap e
              else 25 # 100
  | None => 25 # 100
  end.

Definition available (today : JsDate.t) : Q :=
  (calculateEarnedToDate today * advanceCapOrDefault)%Q.

End Dashboard.

(** [calculateEarnedToDate] on a host whose offset from UTC changes during
    the month: [offsetToday] is the offset in force at [today], and
    [offsetStart] the one in force at the local midnight that starts the
    month. *)
Definition calculateEarnedToDateAcross (offsetToday offsetStart : Z)
    (user : option User.t) (today : JsDate.t) : Q :=
  match user with
  | None => 0%Q
  | Some u =>
      let startOfMonth :=
        JsDate.make (JsDate.getFullYear today) (JsDate.getMonth today) 1 in
      let workingDays :=
        (JsDate.getTime offsetToday today - JsDate.getTime offsetStart startOfMonth)
        / msPerDay in
      (inject_Z workingDays * 8 * User.hourlyRate u)%Q
  end.

(** ** Reachable states *)

(** The states the application can be in: the initial one, at any clock
    reading, and those obtained from it by user events and passing time. *)
Inductive reachable (user : option User.t) (employer : option Employer.t)
  : State -> Prop :=
| reachable_init (t0 : Z) : reachable user employer (initialState t0)
| reachable_step (s : State) (e : Event) :
    reachable user employer s -> reachable user employer (step user employer s e).

(** ** Invariants of the timer queue and of the toast list *)

(** The toast announcing the approval of the amount typed as [amt_text],
    as [processAdvance] builds it when the clock reads [t]. *)
Definition approvalToast (employer : option Employer.t) (amt_text : string)
    (t : Z) : Notification.t :=
  let amt := parseFloat amt_text in
  {| Notification.id := pretty t;
     Notification.type := success;
     Notification.message := AdvanceApproved amt (calculateFee employer amt);
     Notification.timestamp := t;
     Notification.read := false |}.

(** The timer [addNotification] registers for the toast [n]. *)
Definition expiryTimer (n : Notification.t) : Timer :=
  {| due := Notification.timestamp n + 5000;
     callback := RemoveNotification (Notification.id n) |}.

(** A waiting timer at clock reading [t]: it is not due yet, and it was
    registered in the past with the delay of its kind; a removal timer
    names the toast created at its registration. *)
Definition timerOk (t : Z) (tm : Timer) : Prop :=
  t < due tm /\
  match callback tm with
  | RemoveNotification id => id = pretty (due tm - 5000) /\ due tm <= t + 5000
  | ScanDone _ _ => due tm <= t + 2000
  end.

(** A displayed toast: its id is its creation time, and its removal timer
    is waiting or is one of [firing], the timers being run. *)
Definition toastOk (waiting firing : list Timer) (n : Notification.t) : Prop :=
  Notification.id n = pretty (Notification.timestamp n)
  /\ (In (expiryTimer n) waiting \/ In (expiryTimer n) firing).

Definition consistent (s : State) : Prop :=
  Forall (timerOk (now s)) (timers s)
  /\ Forall (toastOk (timers s) []) (notifications s).

(** While the callbacks due at [t] run, the toasts whose removal is one
    of the callbacks still to run stay on display. *)
Definition firing (t : Z) (rest : list Timer) (acc : State) : Prop :=
  now acc = t
  /\ Forall (timerOk t) (timers acc)
  /\ Forall (toastOk (timers acc) rest) (notifications acc).

(** An event that does not dismiss the toast [id] by a click on it. *)
Definition keepsToast (id : string) (e : Event) : Prop :=
  match e with
  | ClickToast id' => id' <> id
  | _ => True
  end.

(** An event that takes no time. *)
Definition instantaneous (e : Event) : Prop :=
  match e with
  | Elapse _ => False
  | _ => True
  end.

(** A timer that removes a toast, as opposed to a scan in flight. *)
Definition isRemoval (tm : Timer) : Prop :=
  match callback tm with
  | RemoveNotification _ => True
  | ScanDone _ _ => False
  end.



(** ** Strings

    [toLowerCase] and [includes] of JavaScript strings. Strings are
    sequences of bytes here, and only the letters of ASCII change case: the
    two functions are those of JavaScript on ASCII texts, which the names
    of the catalogue and the endpoints are. *)

Definition toLowerChar (c : ascii) : ascii :=
  let n := N_of_ascii c in
  if ((65 <=? n)%N && (n <=? 90)%N)%bool then ascii_of_N (n + 32) else c.

Fixpoint toLowerCase (s : string) : string :=
  match s with
  | EmptyString => EmptyString
  | String c s' => String (toLowerChar c) (toLowerCase s')
  end.

(** [s.includes(t)]: [t] occurs in [s], at some position. *)
Fixpoint includes (s t : string) : bool :=
  String.prefix t s ||
  match s with
  | String _ s' => includes s' t
  | EmptyString => false
  end.

(** ** Catalogue search ([VoucherMarketplace]) *)

(** The [category] cell: ['all'] or one of the three categories. *)
Inductive CategoryFilter :=
| AllCategories
| OnlyCategory (c : VoucherCategory).

Definition VoucherCategory_eqb (a b : VoucherCategory) : bool :=
  match a, b with
  | mobile, mobile | utility, utility | retail, retail => true
  | _, _ => false
  end.

Definition matchesCategory (category : CategoryFilter) (v : Voucher.t) : bool :=
  match category with
  | AllCategories => true
  | OnlyCategory c => VoucherCategory_eqb (Voucher.category v) c
  end.

Definition matchesSearch (searchTerm : string) (v : Voucher.t) : bool :=
  includes (toLowerCase (Voucher.name v)) (toLowerCase searchTerm)
  || includes (toLowerCase (Voucher.provider v)) (toLowerCase searchTerm).

(** [filteredVouchers], over the catalogue [mockVouchers]. *)
Definition filteredVouchers (category : CategoryFilter) (searchTerm : string)
    (catalogue : list Voucher.t) : list Voucher.t :=
  List.filter (fun v => matchesCategory category v && matchesSearch searchTerm v)
              catalogue.

(** ** Wellness score ([WellnessHub]) *)

(** [user?.wellnessScore || 0] *)
Definition wellnessScoreOrZero (user : option User.t) : Q :=
  match user with
  | Some u =>
      match User.wellnessScore u with
      | Some q => if truthy q then q else 0
      | None => 0
      end
  | None => 0
  end.

Definition maxScore : Q := 850.

Definition wellnessPercentage (user : option User.t) : Q :=
  (wellnessScoreOrZero user / maxScore * 100)%Q.

(** ** The API service and its fallback ([ApiService]) *)

(** What a request resolves to: the JSON value [null], an object seen
    through its [success], [token] and [user] properties (a missing
    property is [false] or [None]), a list of vouchers or of transactions,
    or a score. *)
Inductive Response :=
| JsonNull
| Reply (success : bool) (token : option string) (user : option User.t)
| VoucherList (l : list Voucher.t)
| TransactionList (l : list Transaction.t)
| Score (score max : Q).

Module ApiService.

Definition getMockResponse (endpoint : string) : Response :=
  if includes endpoint "/auth/login" then
    Reply true (Some "mock-jwt-token") (nth_error mockUsers 0)
  else if includes endpoint "/vouchers" then VoucherList mockVouchers
  else if includes endpoint "/transactions" then TransactionList mockTransactions
  else if includes endpoint "/wellness-score" then Score 750 850
  else Reply true None None.

(** [request(endpoint, options)]. [fetched] is the body the backend
    answered with, and [None] when [fetch] rejects, when the status is not
    ok or when the body is not JSON: everything the [try] block can throw. *)
Definition request (endpoint : string) (fetched : option Response) : Response :=
  match fetched with
  | Some body => body
  | None => getMockResponse endpoint
  end.

Definition login (email password : string) (fetched : option Response) : Response :=
  request "/auth/login" fetched.

Definition getTransactions (userId : string) (fetched : option Response)
  : Response :=
  request (String.append "/transactions/" userId) fetched.

Definition requestAdvance (fetched : option Response) : Response :=
  request "/transactions/advance" fetched.

(** [category ? `?category=${category}` : ''] *)
Definition getVouchers (category : option string) (fetched : option Response)
  : Response :=
  let query :=
    match category with
    | Some c => if String.eqb c "" then "" else String.append "?category=" c
    | None => ""
    end in
  request (String.append "/vouchers" query) fetched.

Definition purchaseVoucher (voucherId userId : string)
    (fetched : option Response) : Response :=
  request "/vouchers/purchase" fetched.

Definition getWellnessScore (userId : string) (fetched : option Response)
  : Response :=
  request (String.append "/wellness/" userId) fetched.

End ApiService.

(** ** Signing in and out ([App]) *)

Module App.

(** The cells of [App] that hold the session, the token kept by the API
    service, and the rest of the application state. *)
Record t := {
  user : option User.t;
  token : option string;
  isAdmin : bool;
  loading : bool;
  apiToken : option string;
  ui : State
}.

End App.

Definition setLoading (b : bool) (app : App.t) : App.t :=
  {| App.user := App.user app; App.token := App.token app;
     App.isAdmin := App.isAdmin app; App.loading := b;
     App.apiToken := App.apiToken app; App.ui := App.ui app |}.

(** [setUser], [setToken], [apiService.setToken] and [setIsAdmin], as
    [login] and [logout] call them together. *)
Definition setSession (u : option User.t) (tok : option string) (admin : bool)
    (app : App.t) : App.t :=
  {| App.user := u; App.token := tok; App.isAdmin := admin;
     App.loading := App.loading app; App.apiToken := tok;
     App.ui := App.ui app |}.

Definition setUi (f : State -> State) (app : App.t) : App.t :=
  {| App.user := App.user app; App.token := App.token app;
     App.isAdmin := App.isAdmin app; App.loading := App.loading app;
     App.apiToken := App.apiToken app; App.ui := f (App.ui app) |}.

(** The continuation of [login] once the request has resolved to
    [fetched]; the result is the value the promise resolves to. Reading
    [response.success] of [null] throws, which the [catch] block turns into
    the error toast; the [finally] block runs on every path. *)
Definition login (email password : string) (fetched : option Response)
    (app : App.t) : bool * App.t :=
  let app1 := setLoading true app in
  match ApiService.login email password fetched with
  | JsonNull =>
      (false,
       setLoading false
         (setUi (addNotification error (Text "Login failed. Please try again."))
                app1))
  | Reply true tok u =>
      (true,
       setLoading false
         (setUi (addNotification success (Text "Login successful!"))
                (setSession u tok (includes email "admin") app1)))
  | _ => (false, setLoading false app1)
  end.

Definition logout (app : App.t) : App.t :=
  setUi (fun s =>
           addNotification info (Text "Logged out successfully")
             (if Tab_eqb TabDashboard (activeTab s) then s
              else setActiveTab TabDashboard s))
        (setSession None None false app).

(** What [App] renders. *)
Inductive Screen := LoginScreen | AdminDashboard | UserScreens.

Definition screen (app : App.t) : Screen :=
  match App.user app with
  | None => LoginScreen
  | Some _ => if App.isAdmin app then AdminDashboard else UserScreens
  end.

(** The application before anyone has signed in, at time [t0]. *)
Definition signedOut (t0 : Z) : App.t :=
  {| App.user := None; App.token := None; App.isAdmin := false;
     App.loading := false; App.apiToken := None; App.ui := initialState t0 |}.

(** ** Further invariants *)

(** The toasts are listed in the order of their creation. *)
Definition inCreationOrder (l : list Notification.t) : Prop :=
  StronglySorted (fun a b => Notification.timestamp a <= Notification.timestamp b) l.

(** The scans in flight were started by instances of [AdvanceRequest]
    numbered below [bound]. *)
Definition scansBelow (bound : N) (l : list Timer) : Prop :=
  Forall (fun tm => match callback tm with
                    | ScanDone i _ => (i < bound)%N
                    | RemoveNotification _ => True
                    end) l.

(** The cells of the mounted screen. *)
Definition form (s : State) : Tab * N * string * PaymentMethod * bool * bool :=
  (activeTab s, advanceInstance s, amount s, paymentMethod s, showBiometric s,
   scanning s).

(** A string of decimal digits. *)
Fixpoint allDigits (s : string) : bool :=
  match s with
  | EmptyString => true
  | String c s' =>
      match digitValue c with
      | Some _ => allDigits s'
      | None => false
      end
  end.

(** ** Sample inputs *)

(** 11 January 2024, 09:30 local time: ten whole days into the month. *)
Definition eleventhOfJanuary : JsDate.t :=
  {| JsDate.getFullYear := 2024; JsDate.getMonth := 0; JsDate.getDate := 11;
     JsDate.msOfDay := 34200000 |}.

(** An employer whose fee ceiling lies below its flat fee. *)
Definition lowCeilingEmployer : Employer.t :=
  {| Employer.id := "4"; Employer.code := "LOWMAX"; Employer.name := "Low Max";
     Employer.payrollDay := 25; Employer.advanceCap := 25 # 100;
     Employer.feeStructure :=
       {| FeeStructure.flat := 25; FeeStructure.percentage := 1 # 100;
          FeeStructure.max := 10 |} |}.

(** The employer of Thabo, with advances switched off by a cap of zero. *)
Definition noAdvanceEmployer : Employer.t :=
  {| Employer.id := "1"; Employer.code := "TECH001"; Employer.name := "TechCorp SA";
     Employer.payrollDay := 25; Employer.advanceCap := 0;
     Employer.feeStructure :=
       {| FeeStructure.flat := 25; FeeStructure.percentage := 1 # 100;
          FeeStructure.max := 60 |} |}.

(** A voucher of price 48 with one unit left, and one with none left. *)
Definition lastUnitVoucher : Voucher.t :=
  mkVoucher "9" mobile "Vodacom" "R50 Airtime" 50 48 4 1.

Definition soldOutVoucher : Voucher.t :=
  mkVoucher "10" mobile "Vodacom" "R50 Airtime" 50 48 4 0.

(** The host's offset from UTC in the examples: two hours, in milliseconds. *)
Definition utcPlusTwo : Z := 7200000.

(** The first of November 2026, 23:30 local time. *)
Definition lateOnTheFirstOfNovember : JsDate.t :=
  {| JsDate.getFullYear := 2026; JsDate.getMonth := 10; JsDate.getDate := 1;
     JsDate.msOfDay := 84600000 |}.

(** A shop whose catalogue holds the last-unit voucher only. *)
Definition lastUnitShop : State :=
  {| now := 1704958200000; notifications := []; timers := [];
     activeTab := TabVouchers; advanceInstance := 0;
     amount := ""; paymentMethod := instant;
     showBiometric := false; scanning := false;
     vouchers := [lastUnitVoucher]; transactions := [] |}.

(** * Properties *)

(** ** Numbers *)

Lemma parseFloat_empty : parseFloat "" = NaN.
Proof. reflexivity. Qed.

Lemma parsed_amount_not_empty (s : State) (a : Q) :
  parseFloat (amount s) = Num a -> amount s <> "".
Proof. intros H Hempty. rewrite Hempty in H. discriminate H. Qed.

Lemma num_leb_Num (x y : Q) : num_leb (Num x) (Num y) = true <-> (x <= y)%Q.
Proof. simpl. apply Qle_bool_iff. Qed.

(** ** Fee computation *)

Lemma min_le_ceiling (flat pct ceiling a : Q) :
  (Qmin (flat + a * pct) ceiling <= ceiling)%Q.
Proof. apply Q.le_min_r. Qed.

Lemma min_ge_flat (flat pct ceiling a : Q) :
  (0 <= a)%Q -> (0 <= pct)%Q -> (flat <= ceiling)%Q ->
  (flat <= Qmin (flat + a * pct) ceiling)%Q.
Proof.
  intros Ha Hp Hfm. apply Q.min_glb; [|exact Hfm].
  assert (0 <= a * pct)%Q by (apply Qmult_le_0_compat; assumption).
  lra.
Qed.

Lemma calculateFee_Num (e : Employer.t) (a : Q) :
  calculateFee (Some e) (Num a)
  = Num (Qmin (FeeStructure.flat (Employer.feeStructure e)
               + a * FeeStructure.percentage (Employer.feeStructure e))
              (FeeStructure.max (Employer.feeStructure e))).
Proof. reflexivity. Qed.

(** C1 (as amended). With an employer, the fee of a numeric amount is
    [min(flat + amount * percentage, max)]; it never exceeds [max]; for a
    positive amount and a non-negative percentage it is at least [flat]
    provided that [flat <= max]; and for the structure
    [{flat: 25, percentage: 0.01, max: 60}] the fee of 500 is 30. *)
Theorem calculateFee_is_capped_linear_fee :
  (forall (e : Employer.t) (a : Q),
      let fs := Employer.feeStructure e in
      exists fee : Q,
        calculateFee (Some e) (Num a) = Num fee
        /\ (fee == Qmin (FeeStructure.flat fs + a * FeeStructure.percentage fs)
                        (FeeStructure.max fs))%Q
        /\ (fee <= FeeStructure.max fs)%Q
        /\ ((0 < a)%Q -> (0 <= FeeStructure.percentage fs)%Q ->
            (FeeStructure.flat fs <= FeeStructure.max fs)%Q ->
            (FeeStructure.flat fs <= fee)%Q))
  /\ num_eq (calculateFee (Some techCorp) (Num 500)) (Num 30).
Proof.
  split.
  - intros e a fs. eexists. split; [apply calculateFee_Num|].
    fold fs. split; [reflexivity|]. split; [apply min_le_ceiling|].
    intros Ha Hp Hfm. apply min_ge_flat; [apply Qlt_le_weak| |]; assumption.
  - reflexivity.
Qed.

Lemma calculateFee_is_capped_linear_fee_witness :
  exists fee : Q,
    calculateFee (Some retailHub) (Num 1000) = Num fee
    /\ (fee <= 50)%Q /\ (20 <= fee)%Q.
Proof.
  destruct (proj1 calculateFee_is_capped_linear_fee retailHub 1000%Q)
    as (fee & Hfee & _ & Hmax & Hflat).
  exists fee. split; [exact Hfee|]. split; [exact Hmax|].
  apply Hflat; reflexivity || (intro H; discriminate H).
Defined.

(** C1 (as stated) fails when the fee ceiling is below the flat fee: for
    [{flat: 25, percentage: 0.01, max: 10}] and the amount 1, which is
    positive, the fee is 10, below the flat fee of 25. *)
Lemma calculateFee_below_flat :
  (0 < 1)%Q
  /\ (0 <= FeeStructure.percentage (Employer.feeStructure lowCeilingEmployer))%Q
  /\ calculateFee (Some lowCeilingEmployer) (Num 1) = Num 10
  /\ ~ (FeeStructure.flat (Employer.feeStructure lowCeilingEmployer) <= 10)%Q.
Proof.
  split; [reflexivity|]. split; [intro H; discriminate H|].
  split; [reflexivity|]. intros H. apply H. reflexivity.
Qed.


(** C4 (as stated) fails: the fee of the amount 0 under
    [{flat: 25, percentage: 0.01, max: 60}] is the number 25, the flat fee,
    and the fee of -100 is the number 24. *)
Lemma calculateFee_of_zero_is_a_number :
  (0 <= 0)%Q /\ num_eq (calculateFee (Some techCorp) (Num 0)) (Num 25)
  /\ (-100 <= 0)%Q /\ num_eq (calculateFee (Some techCorp) (Num (-100))) (Num 24).
Proof.
  split; [intro H; discriminate H|]. split; [reflexivity|].
  split; [intro H; discriminate H|reflexivity].
Qed.

(** ** Earned wages and the advance ceiling *)

Lemma elapsed_since_start_of_month (utcOffset : Z) (today : JsDate.t) :
  JsDate.getTime utcOffset today
  - JsDate.getTime utcOffset
      (JsDate.make (JsDate.getFullYear today) (JsDate.getMonth today) 1)
  = (JsDate.getDate today - 1) * msPerDay + JsDate.msOfDay today.
Proof. unfold JsDate.getTime, JsDate.makeDay, JsDate.make. simpl. ring. Qed.

Lemma workingDays_is_date_minus_one (utcOffset : Z) (today : JsDate.t) :
  JsDate.wellFormed today ->
  (JsDate.getTime utcOffset today
   - JsDate.getTime utcOffset
       (JsDate.make (JsDate.getFullYear today) (JsDate.getMonth today) 1))
  / msPerDay
  = JsDate.getDate today - 1.
Proof.
  intros (_ & _ & Hms). rewrite elapsed_since_start_of_month.
  symmetry. apply Z.div_unique with (r := JsDate.msOfDay today).
  - left. exact Hms.
  - ring.
Qed.

Lemma earned_to_date_is_days_times_rate (utcOffset : Z) (u : User.t)
    (today : JsDate.t) :
  JsDate.wellFormed today ->
  (calculateEarnedToDate utcOffset (Some u) today
   == inject_Z (JsDate.getDate today - 1) * 8 * User.hourlyRate u)%Q.
Proof.
  intros Hwf. unfold calculateEarnedToDate.
  rewrite (workingDays_is_date_minus_one utcOffset today Hwf). reflexivity.
Qed.

(** With an employer whose cap is not zero, the amount available is the
    earned amount times the cap. *)
Lemma available_with_non_zero_cap (utcOffset : Z) (user : option User.t)
    (e : Employer.t) (today : JsDate.t) :
  ~ (Employer.advanceCap e == 0)%Q ->
  (available utcOffset user (Some e) today
   == calculateEarnedToDate utcOffset user today * Employer.advanceCap e)%Q.
Proof.
  intros Hcap. unfold available, advanceCapOrDefault, truthy.
  destruct (Qeq_bool (Employer.advanceCap e) 0) eqn:Heq; [|reflexivity].
  apply Qeq_bool_iff in Heq. contradiction.
Qed.

(** The employers of [mockEmployers] have caps other than zero. *)
Lemma mockEmployers_cap_non_zero (e : Employer.t) :
  In e mockEmployers -> ~ (Employer.advanceCap e == 0)%Q.
Proof.
  unfold mockEmployers. intros [<-|[<-|[<-|[]]]] H; discriminate H.
Qed.

(** The example of the specification: at an hourly rate of 150, ten days
    into the month and with a cap of 0.25, 12000 is earned and 3000 is
    available. *)
Example earned_and_available_of_thabo (utcOffset : Z) :
  findEmployer mockEmployers (Some thabo) = Some techCorp
  /\ (calculateEarnedToDate utcOffset (Some thabo) eleventhOfJanuary == 12000)%Q
  /\ (available utcOffset (Some thabo) (Some techCorp) eleventhOfJanuary
      == 3000)%Q.
Proof.
  assert (Hwf : JsDate.wellFormed eleventhOfJanuary).
  { unfold JsDate.wellFormed, msPerDay. simpl. lia. }
  pose proof (earned_to_date_is_days_times_rate utcOffset thabo _ Hwf) as Hearned.
  split; [reflexivity|]. split.
  - rewrite Hearned. reflexivity.
  - rewrite (available_with_non_zero_cap utcOffset (Some thabo) techCorp).
    + rewrite Hearned. reflexivity.
    + apply mockEmployers_cap_non_zero. left. reflexivity.
Qed.

(** The fallback of [employer?.advanceCap || 0.25] also replaces a cap of
    zero. *)
Lemma zero_cap_falls_back_to_quarter (e : Employer.t) :
  (Employer.advanceCap e == 0)%Q -> advanceCapOrDefault (Some e) = 25 # 100.
Proof.
  intros H. unfold advanceCapOrDefault, truthy.
  apply Qeq_bool_iff in H. rewrite H. reflexivity.
Qed.

(** C3. The failing input: an employer whose advance cap is 0. Ten days
    into the month, at an hourly rate of 150, the earned amount is
    10 * 8 * 150 = 12000, and the earned amount times the cap is 0, but the
    amount available is 3000: the cap of zero is replaced by 0.25. *)
Theorem zero_advance_cap_is_replaced_by_a_quarter :
  (Employer.advanceCap noAdvanceEmployer == 0)%Q
  /\ (calculateEarnedToDate utcPlusTwo (Some thabo) eleventhOfJanuary == 12000)%Q
  /\ (calculateEarnedToDate utcPlusTwo (Some thabo) eleventhOfJanuary
      * Employer.advanceCap noAdvanceEmployer == 0)%Q
  /\ (available utcPlusTwo (Some thabo) (Some noAdvanceEmployer) eleventhOfJanuary
      == 3000)%Q.
Proof. repeat split. Qed.

(** ** Voucher purchase *)

(** C7 (as amended). Buying a voucher never fails and never looks at the
    stock: whatever the voucher, the catalogue and the transactions are
    left as they are, and one success toast naming the voucher is added. *)
Theorem handlePurchase_only_notifies :
  forall (v : Voucher.t) (s : State),
    vouchers (handlePurchase v s) = vouchers s
    /\ transactions (handlePurchase v s) = transactions s
    /\ notifications (handlePurchase v s)
       = notifications s
         ++ [newNotification success (VoucherPurchased (Voucher.name v)) s].
Proof. intros v s. repeat split. Qed.

(** C7 (as stated) fails: the voucher with one unit left is bought twice,
    both purchases are announced as successful, the stock stays at 1 and no
    transaction is recorded; a voucher without stock is bought as well. *)
Lemma voucher_bought_twice_keeps_stock :
  let s := run (Some sarah) (Some retailHub)
               [ClickBuyNow lastUnitVoucher; ClickBuyNow lastUnitVoucher]
               lastUnitShop in
  Voucher.stock lastUnitVoucher = 1
  /\ map Voucher.stock (vouchers s) = [1]
  /\ map Notification.type (notifications s) = [success; success]
  /\ transactions s = []
  /\ Voucher.stock soldOutVoucher = 0
  /\ map Notification.type
         (notifications (handlePurchase soldOutVoucher lastUnitShop))
     = [success].
Proof. repeat split. Qed.

(** ** Timers and toasts *)

Ltac split_ifs :=
  repeat match goal with
         | |- context [if ?c then _ else _] => destruct c
         end.

Ltac unfold_handlers :=
  unfold handleSubmit, handlePresetAmount, handlePurchase, handleBiometric,
    onCancel, onSuccess, processAdvance, ofInstance.

Lemma pretty_Z_ne (x y : Z) : x <> y -> pretty x <> pretty y.
Proof. intros Hne Heq. apply Hne. exact (inj pretty x y Heq). Qed.

Lemma toastOk_weaken (w w' f f' : list Timer) (n : Notification.t) :
  (forall tm, In tm w -> In tm w') -> (forall tm, In tm f -> In tm f') ->
  toastOk w f n -> toastOk w' f' n.
Proof.
  intros Hw Hf (Hid & [H|H]); split; auto.
Qed.

Lemma addNotification_consistent (ty : NotificationType) (msg : Message) (s : State) :
  consistent s -> consistent (addNotification ty msg s).
Proof.
  intros [Htm Hn]. split; simpl.
  - apply List.Forall_app. split; [exact Htm|].
    constructor; [|constructor]. unfold timerOk, Date_now. simpl.
    rewrite Z.add_simpl_r. repeat split; lia.
  - apply List.Forall_app. split.
    + eapply List.Forall_impl; [|exact Hn]. intros n.
      apply toastOk_weaken; [|tauto]. intros tm H. apply in_or_app. now left.
    + constructor; [|constructor]. split; [reflexivity|].
      left. apply in_or_app. right. left. reflexivity.
Qed.

Lemma removeNotification_consistent (id : string) (s : State) :
  consistent s -> consistent (removeNotification id s).
Proof.
  intros [Htm Hn]. split; simpl; [exact Htm|].
  apply List.Forall_forall. intros n Hin. apply List.filter_In in Hin.
  destruct Hin as [Hin _].
  exact (proj1 (List.Forall_forall _ _) Hn n Hin).
Qed.

Section Consistency.

Variable user : option User.t.
Variable employer : option Employer.t.

Lemma processAdvance_effects (i : N) (a : string) (s : State) :
  now (processAdvance employer i a s) = now s
  /\ notifications (processAdvance employer i a s)
     = notifications s ++ [approvalToast employer a (now s)]
  /\ timers (processAdvance employer i a s)
     = timers s ++ [expiryTimer (approvalToast employer a (now s))].
Proof.
  unfold processAdvance, ofInstance.
  destruct (i =? advanceInstance _)%N; repeat split.
Qed.

Lemma onSuccess_effects (i : N) (a : string) (s : State) :
  now (onSuccess employer i a s) = now s
  /\ notifications (onSuccess employer i a s)
     = notifications s ++ [approvalToast employer a (now s)]
  /\ timers (onSuccess employer i a s)
     = timers s ++ [expiryTimer (approvalToast employer a (now s))].
Proof.
  unfold onSuccess.
  destruct (processAdvance_effects i a (ofInstance i (setShowBiometric false) s))
    as (H1 & H2 & H3).
  rewrite H1, H2, H3. unfold ofInstance.
  destruct (i =? advanceInstance s)%N; repeat split.
Qed.

Lemma runCallback_ScanDone (i : N) (a : string) (s : State) :
  now (runCallback employer (ScanDone i a) s) = now s
  /\ notifications (runCallback employer (ScanDone i a) s)
     = notifications s ++ [approvalToast employer a (now s)]
  /\ timers (runCallback employer (ScanDone i a) s)
     = timers s ++ [expiryTimer (approvalToast employer a (now s))].
Proof.
  unfold runCallback.
  destruct (onSuccess_effects i a (ofInstance i (setScanning false) s))
    as (H1 & H2 & H3).
  rewrite H1, H2, H3. unfold ofInstance.
  destruct (i =? advanceInstance s)%N; repeat split.
Qed.

Lemma consistent_after_toast (s s' : State) (n : Notification.t) :
  now s' = now s ->
  notifications s' = notifications s ++ [n] ->
  timers s' = timers s ++ [expiryTimer n] ->
  Notification.id n = pretty (now s) -> Notification.timestamp n = now s ->
  consistent s -> consistent s'.
Proof.
  intros Hnow Hn Ht Hid Hts [Htm Hns]. unfold consistent.
  rewrite Hnow, Hn, Ht. split.
  - apply List.Forall_app. split; [exact Htm|].
    constructor; [|constructor]. unfold timerOk, expiryTimer. simpl.
    rewrite Hts, Z.add_simpl_r. repeat split; [lia|exact Hid|lia].
  - apply List.Forall_app. split.
    + eapply List.Forall_impl; [|exact Hns]. intros n'.
      apply toastOk_weaken; [|tauto]. intros tm H. apply in_or_app. now left.
    + constructor; [|constructor]. split; [now rewrite Hid, Hts|].
      left. apply in_or_app. right. left. reflexivity.
Qed.

Lemma processAdvance_consistent (i : N) (a : string) (s : State) :
  consistent s -> consistent (processAdvance employer i a s).
Proof.
  destruct (processAdvance_effects i a s) as (H1 & H2 & H3).
  now apply (consistent_after_toast s _ (approvalToast employer a (now s))).
Qed.

Lemma now_runCallback (cb : Callback) (s : State) :
  now (runCallback employer cb s) = now s.
Proof.
  destruct cb as [id|i a]; [reflexivity|]. apply runCallback_ScanDone.
Qed.

Lemma timers_runCallback (cb : Callback) (s : State) (tm : Timer) :
  In tm (timers s) -> In tm (timers (runCallback employer cb s)).
Proof.
  destruct cb as [id|i a]; [simpl; tauto|].
  destruct (runCallback_ScanDone i a s) as (_ & _ & H). rewrite H.
  intros Hin. apply in_or_app. now left.
Qed.

Lemma fold_runCallback_preserves (P : State -> Prop) (Q : Timer -> Prop) :
  (forall tm acc, Q tm -> P acc -> P (runCallback employer (callback tm) acc)) ->
  forall (ready : list Timer) (acc : State),
    Forall Q ready -> P acc ->
    P (fold_left (fun acc tm => runCallback employer (callback tm) acc) ready acc).
Proof.
  intros Hstep ready. induction ready as [|tm ready IH]; intros acc HQ HP.
  - exact HP.
  - inversion HQ; subst. simpl. apply IH; [assumption|]. now apply Hstep.
Qed.

Lemma now_tick (s : State) : now (tick employer s) = now s + 1.
Proof.
  unfold tick.
  apply (fold_runCallback_preserves (fun acc => now acc = now s + 1) (fun _ => True)).
  - intros tm acc _ H. now rewrite now_runCallback.
  - apply List.Forall_forall. trivial.
  - reflexivity.
Qed.

Lemma now_elapse (ms : N) (s : State) :
  now (elapse employer ms s) = now s + Z.of_N ms.
Proof.
  unfold elapse. induction ms as [|ms IH] using N.peano_ind.
  - simpl. lia.
  - rewrite N.iter_succ, now_tick, IH. lia.
Qed.

Lemma runCallback_firing (t : Z) (tm : Timer) (rest : list Timer) (acc : State) :
  firing t (tm :: rest) acc ->
  firing t rest (runCallback employer (callback tm) acc).
Proof.
  intros (Hnow & Htm & Hn). destruct tm as [d cb]. destruct cb as [id|i a].
  - simpl. split; [exact Hnow|]. split; [exact Htm|].
    apply List.Forall_forall. intros n Hin. apply List.filter_In in Hin.
    destruct Hin as [Hin Hne].
    destruct (proj1 (List.Forall_forall _ _) Hn n Hin) as (Hid & [H|[H|H]]).
    + split; auto.
    + exfalso. injection H as _ Hid'. subst id.
      rewrite String.eqb_refl in Hne. discriminate.
    + split; auto.
  - cbn [callback]. unfold firing.
    destruct (runCallback_ScanDone i a acc) as (H1 & H2 & H3).
    rewrite H1, H2, H3. split; [exact Hnow|]. split.
    + apply List.Forall_app. split; [exact Htm|].
      constructor; [|constructor]. unfold timerOk, expiryTimer. simpl.
      rewrite Z.add_simpl_r, Hnow. repeat split; lia.
    + apply List.Forall_app. split.
      * apply List.Forall_forall. intros n Hin.
        destruct (proj1 (List.Forall_forall _ _) Hn n Hin) as (Hid & [H|[H|H]]).
        -- split; [exact Hid|]. left. apply in_or_app. now left.
        -- discriminate H.
        -- split; auto.
      * constructor; [|constructor]. split; [reflexivity|].
        left. apply in_or_app. right. left. reflexivity.
Qed.

Lemma fold_firing (t : Z) (ready : list Timer) (acc : State) :
  firing t ready acc ->
  firing t [] (fold_left (fun acc tm => runCallback employer (callback tm) acc)
                         ready acc).
Proof.
  revert acc. induction ready as [|tm ready IH]; intros acc H.
  - exact H.
  - simpl. apply IH. now apply runCallback_firing.
Qed.

Lemma tick_consistent (s : State) : consistent s -> consistent (tick employer s).
Proof.
  intros [Htm Hn].
  assert (H : firing (now s + 1) []
                (fold_left (fun acc tm => runCallback employer (callback tm) acc)
                   (List.filter (isDue (now s + 1)) (timers s))
                   (setTimers
                      (List.filter (fun tm => negb (isDue (now s + 1) tm)) (timers s))
                      (setNow (now s + 1) s)))).
  { apply fold_firing. split; [reflexivity|]. split; simpl.
    - apply List.Forall_forall. intros tm Hin. apply List.filter_In in Hin.
      destruct Hin as [Hin Hdue].
      pose proof (proj1 (List.Forall_forall _ _) Htm tm Hin) as [Hlt Hk].
      unfold isDue in Hdue. apply negb_true_iff, Z.leb_gt in Hdue.
      split; [exact Hdue|]. destruct (callback tm); [split|]; try tauto; lia.
    - apply List.Forall_forall. intros n Hin.
      destruct (proj1 (List.Forall_forall _ _) Hn n Hin) as (Hid & [H|[]]).
      split; [exact Hid|].
      destruct (isDue (now s + 1) (expiryTimer n)) eqn:Hdue.
      + right. apply List.filter_In. auto.
      + left. apply List.filter_In. rewrite Hdue. auto. }
  destruct H as (Hnow & Htm' & Hn'). split.
  - rewrite now_tick. exact Htm'.
  - exact Hn'.
Qed.

Lemma elapse_consistent (ms : N) (s : State) :
  consistent s -> consistent (elapse employer ms s).
Proof.
  intros H. unfold elapse. induction ms as [|ms IH] using N.peano_ind.
  - exact H.
  - rewrite N.iter_succ. now apply tick_consistent.
Qed.

Lemma handleBiometric_consistent (s : State) :
  consistent s -> consistent (handleBiometric s).
Proof.
  intros [Htm Hn]. split; simpl.
  - apply List.Forall_app. split; [exact Htm|].
    constructor; [|constructor]. unfold timerOk. simpl. lia.
  - eapply List.Forall_impl; [|exact Hn]. intros n.
    apply toastOk_weaken; [|tauto]. intros tm Hin. apply in_or_app. now left.
Qed.

Lemma step_consistent (s : State) (e : Event) :
  consistent s -> consistent (step user employer s e).
Proof.
  intros H. destruct e; simpl.
  - destruct (Tab_eqb tab (activeTab s)); exact H.
  - destruct (onAdvance s); exact H.
  - destruct (onAdvance s); exact H.
  - destruct (onAdvance s); exact H.
  - destruct (onAdvance s && negb (submitDisabled s)); [|exact H].
    unfold handleSubmit. destruct (biometricEnabled user); [exact H|].
    now apply processAdvance_consistent.
  - destruct (onAdvance s && showBiometric s && negb (scanning s)); [|exact H].
    now apply handleBiometric_consistent.
  - destruct (onAdvance s && showBiometric s); exact H.
  - destruct (onVouchers s); [|exact H]. now apply addNotification_consistent.
  - now apply removeNotification_consistent.
  - now apply elapse_consistent.
Qed.

Lemma reachable_consistent (s : State) :
  reachable user employer s -> consistent s.
Proof.
  induction 1 as [t0|s e _ IH].
  - split; constructor.
  - now apply step_consistent.
Qed.

End Consistency.

Section Timers.

Variable user : option User.t.
Variable employer : option Employer.t.

Lemma now_step (s : State) (e : Event) : now s <= now (step user employer s e).
Proof.
  destruct e; cbn [step]; [..|rewrite now_elapse; lia];
    split_ifs; unfold_handlers; split_ifs; simpl; lia.
Qed.

(** A removal that is due names a toast older than five seconds. *)
Lemma due_removal_is_old (s : State) (tm : Timer) (t : Z) :
  consistent s -> In tm (timers s) -> due tm <= t ->
  forall t', t - 5000 < t' -> callback tm <> RemoveNotification (pretty t').
Proof.
  intros [Htm _] Hin Hdue t' Ht' Hcb.
  pose proof (proj1 (List.Forall_forall _ _) Htm tm Hin) as [_ Hk].
  rewrite Hcb in Hk. destruct Hk as [Hid _].
  apply (pretty_Z_ne t' (due tm - 5000)); [lia|exact Hid].
Qed.

Lemma runCallback_keeps_toast (n : Notification.t) (cb : Callback) (acc : State) :
  cb <> RemoveNotification (Notification.id n) ->
  In n (notifications acc) ->
  In n (notifications (runCallback employer cb acc)).
Proof.
  intros Hcb Hin. destruct cb as [id|i a].
  - simpl. apply List.filter_In. split; [exact Hin|].
    apply negb_true_iff. apply String.eqb_neq. congruence.
  - rewrite (proj1 (proj2 (runCallback_ScanDone employer i a acc))).
    apply in_or_app. now left.
Qed.

Lemma tick_keeps_toast (s : State) (n : Notification.t) (T : Z) :
  consistent s -> Notification.id n = pretty T -> now s + 1 < T + 5000 ->
  In n (notifications s) -> In n (notifications (tick employer s)).
Proof.
  intros Hc Hid Hlt Hin. unfold tick.
  apply (fold_runCallback_preserves employer
           (fun acc => In n (notifications acc))
           (fun tm => callback tm <> RemoveNotification (Notification.id n))).
  - intros tm acc. apply runCallback_keeps_toast.
  - apply List.Forall_forall. intros tm Htm. apply List.filter_In in Htm.
    destruct Htm as [Htm Hdue]. unfold isDue in Hdue. apply Z.leb_le in Hdue.
    rewrite Hid. apply (due_removal_is_old s tm (now s + 1)); auto. lia.
  - exact Hin.
Qed.

Lemma elapse_keeps_toast (ms : N) (s : State) (n : Notification.t) (T : Z) :
  consistent s -> Notification.id n = pretty T ->
  now s + Z.of_N ms < T + 5000 ->
  In n (notifications s) -> In n (notifications (elapse employer ms s)).
Proof.
  intros Hc Hid. unfold elapse. induction ms as [|ms IH] using N.peano_ind.
  - intros _ H. exact H.
  - intros Hlt Hin. rewrite N.iter_succ.
    apply (tick_keeps_toast _ n T).
    + now apply elapse_consistent.
    + exact Hid.
    + fold (elapse employer ms s). rewrite now_elapse. lia.
    + apply IH; [lia|exact Hin].
Qed.

Lemma step_keeps_toast (s : State) (e : Event) (n : Notification.t) (T : Z) :
  consistent s -> Notification.id n = pretty T ->
  keepsToast (Notification.id n) e ->
  now (step user employer s e) < T + 5000 ->
  In n (notifications s) -> In n (notifications (step user employer s e)).
Proof.
  intros Hc Hid Hkeep Hlt Hin.
  destruct e; cbn [step keepsToast] in *;
    try (split_ifs; unfold_handlers; split_ifs; simpl;
         solve [exact Hin | apply in_or_app; now left]).
  - apply List.filter_In. split; [exact Hin|].
    apply negb_true_iff. apply String.eqb_neq. congruence.
  - rewrite now_elapse in Hlt. now apply (elapse_keeps_toast _ _ _ T).
Qed.

Lemma now_run (events : list Event) (s : State) :
  now s <= now (run user employer events s).
Proof.
  revert s. induction events as [|e events IH]; intros s; simpl; [lia|].
  pose proof (now_step s e). pose proof (IH (step user employer s e)).
  unfold run in *. lia.
Qed.

Lemma run_consistent (events : list Event) (s : State) :
  consistent s -> consistent (run user employer events s).
Proof.
  revert s. induction events as [|e events IH]; intros s H; simpl; [exact H|].
  apply IH. now apply step_consistent.
Qed.

Lemma run_keeps_toast (events : list Event) (s : State) (n : Notification.t) (T : Z) :
  consistent s -> Notification.id n = pretty T ->
  Forall (keepsToast (Notification.id n)) events ->
  now (run user employer events s) < T + 5000 ->
  In n (notifications s) -> In n (notifications (run user employer events s)).
Proof.
  intros Hc Hid Hkeep. revert s Hc.
  induction Hkeep as [|e events He Hkeep IH]; intros s Hc Hlt Hin; simpl in *.
  - exact Hin.
  - pose proof (now_run events (step user employer s e)) as Hmono.
    unfold run in *. apply IH.
    + now apply step_consistent.
    + exact Hlt.
    + apply (step_keeps_toast s e n T); auto. lia.
Qed.

(** A displayed toast is younger than five seconds. *)
Lemma displayed_toast_is_young (s : State) (n : Notification.t) :
  consistent s -> In n (notifications s) ->
  now s < Notification.timestamp n + 5000.
Proof.
  intros [Htm Hn] Hin.
  destruct (proj1 (List.Forall_forall _ _) Hn n Hin) as (_ & [H|[]]).
  pose proof (proj1 (List.Forall_forall _ _) Htm _ H) as [Hlt _].
  exact Hlt.
Qed.

(** ** The scan timer *)

Lemma tick_keeps_waiting_timer (s : State) (tm : Timer) :
  In tm (timers s) -> now s + 1 < due tm -> In tm (timers (tick employer s)).
Proof.
  intros Hin Hlt. unfold tick.
  apply (fold_runCallback_preserves employer
           (fun acc => In tm (timers acc)) (fun _ => True)).
  - intros tm' acc _. apply timers_runCallback.
  - apply List.Forall_forall. trivial.
  - simpl. apply List.filter_In. split; [exact Hin|].
    apply negb_true_iff. apply Z.leb_gt. exact Hlt.
Qed.

Lemma elapse_keeps_waiting_timer (ms : N) (s : State) (tm : Timer) :
  In tm (timers s) -> now s + Z.of_N ms < due tm ->
  In tm (timers (elapse employer ms s)).
Proof.
  unfold elapse. induction ms as [|ms IH] using N.peano_ind.
  - intros H _. exact H.
  - intros Hin Hlt. rewrite N.iter_succ. apply tick_keeps_waiting_timer.
    + apply IH; [exact Hin|lia].
    + fold (elapse employer ms s). rewrite now_elapse. lia.
Qed.

Lemma elapse_succ (ms : N) (s : State) :
  elapse employer (N.succ ms) s = tick employer (elapse employer ms s).
Proof. unfold elapse. apply N.iter_succ. Qed.

Lemma tick_fires_scan (s : State) (i : N) (a : string) :
  consistent s ->
  In {| due := now s + 1; callback := ScanDone i a |} (timers s) ->
  In (approvalToast employer a (now s + 1)) (notifications (tick employer s)).
Proof.
  intros Hc Hin. unfold tick.
  set (t := now s + 1).
  set (base := setTimers (List.filter (fun tm => negb (isDue t tm)) (timers s))
                         (setNow t s)).
  assert (Hready : In {| due := t; callback := ScanDone i a |}
                      (List.filter (isDue t) (timers s))).
  { apply List.filter_In. split; [exact Hin|]. unfold isDue. simpl.
    apply Z.leb_refl. }
  assert (Hall : Forall (fun tm => In tm (timers s) /\ due tm <= t)
                        (List.filter (isDue t) (timers s))).
  { apply List.Forall_forall. intros tm Htm. apply List.filter_In in Htm.
    destruct Htm as [Htm Hdue]. split; [exact Htm|].
    unfold isDue in Hdue. now apply Z.leb_le in Hdue. }
  destruct (in_split _ _ Hready) as (l1 & l2 & Heq).
  rewrite Heq in Hall |- *. rewrite fold_left_app. cbn [fold_left callback].
  set (acc1 := fold_left (fun acc tm => runCallback employer (callback tm) acc)
                         l1 base).
  assert (Hnow1 : now acc1 = t).
  { apply (fold_runCallback_preserves employer (fun acc => now acc = t)
             (fun _ => True)).
    - intros tm acc _ H. now rewrite now_runCallback.
    - apply List.Forall_forall. trivial.
    - reflexivity. }
  apply List.Forall_app in Hall. destruct Hall as [_ Hall].
  inversion Hall as [|? ? _ Hl2]; subst.
  apply (fold_runCallback_preserves employer
           (fun acc => In (approvalToast employer a t) (notifications acc))
           (fun tm => In tm (timers s) /\ due tm <= t)).
  - intros tm acc [Htm Hdue] Htoast.
    apply runCallback_keeps_toast; [|exact Htoast]. simpl.
    apply (due_removal_is_old s tm t Hc Htm Hdue). lia.
  - exact Hl2.
  - rewrite (proj1 (proj2 (runCallback_ScanDone employer i a acc1))), Hnow1.
    apply in_or_app. right. left. reflexivity.
Qed.

Lemma pending_scan_fires (d : N) (s : State) (i : N) (a : string) :
  consistent s ->
  In {| due := now s + Z.of_N (N.succ d); callback := ScanDone i a |} (timers s) ->
  In (approvalToast employer a (now s + Z.of_N (N.succ d)))
     (notifications (elapse employer (N.succ d) s)).
Proof.
  intros Hc Hin. rewrite elapse_succ.
  assert (Hnow : now (elapse employer d s) + 1 = now s + Z.of_N (N.succ d)).
  { rewrite now_elapse. lia. }
  rewrite <- Hnow. apply (tick_fires_scan _ i).
  - now apply elapse_consistent.
  - rewrite Hnow. apply elapse_keeps_waiting_timer; [exact Hin|].
    simpl. lia.
Qed.

Lemma step_instantaneous (s : State) (e : Event) :
  instantaneous e ->
  now (step user employer s e) = now s
  /\ (forall tm, In tm (timers s) -> In tm (timers (step user employer s e))).
Proof.
  intros Hi. destruct e; cbn [step instantaneous] in *; [..|contradiction];
    split_ifs; unfold_handlers; split_ifs; simpl;
    (split; [reflexivity|]); intros tm Htm;
    solve [exact Htm | apply in_or_app; now left].
Qed.

(** ** Without a scan in flight *)

Lemma runCallback_removal (tm : Timer) (acc : State) :
  isRemoval tm ->
  timers (runCallback employer (callback tm) acc) = timers acc
  /\ incl (notifications (runCallback employer (callback tm) acc))
          (notifications acc)
  /\ amount (runCallback employer (callback tm) acc) = amount acc
  /\ showBiometric (runCallback employer (callback tm) acc) = showBiometric acc.
Proof.
  unfold isRemoval. destruct (callback tm) as [id|i a]; [intros _|contradiction].
  simpl. repeat split. intros n Hin. apply List.filter_In in Hin. tauto.
Qed.



End Timers.

(** ** The advance request workflow *)

Lemma onAdvance_true (s : State) : activeTab s = TabAdvance -> onAdvance s = true.
Proof. unfold onAdvance. intros ->. reflexivity. Qed.

Lemma request_click (u : User.t) (employer : option Employer.t) (s : State) :
  activeTab s = TabAdvance -> submitDisabled s = false ->
  step (Some u) employer s ClickRequestAdvance = handleSubmit (Some u) employer s.
Proof.
  intros Htab Hen. cbn [step]. rewrite (onAdvance_true s Htab), Hen. reflexivity.
Qed.

Lemma handleSubmit_biometric (u : User.t) (employer : option Employer.t)
    (s : State) :
  User.biometricEnabled u = true ->
  handleSubmit (Some u) employer s = setShowBiometric true s.
Proof. intros Hb. unfold handleSubmit. cbn [biometricEnabled]. now rewrite Hb. Qed.

Lemma handleSubmit_plain (u : User.t) (employer : option Employer.t) (s : State) :
  User.biometricEnabled u = false ->
  handleSubmit (Some u) employer s
  = setAmount "" (addNotification success
                    (AdvanceApproved (parseFloat (amount s))
                       (calculateFee employer (parseFloat (amount s)))) s).
Proof.
  intros Hb. unfold handleSubmit. cbn [biometricEnabled]. rewrite Hb.
  unfold processAdvance, ofInstance. simpl. now rewrite N.eqb_refl.
Qed.

(** ** Scans that were started, and scans that were not *)

Section Scans.

Variable user : option User.t.
Variable employer : option Employer.t.

Lemma step_keeps_waiting_timer (s : State) (e : Event) (tm : Timer) :
  In tm (timers s) -> now (step user employer s e) < due tm ->
  In tm (timers (step user employer s e)).
Proof.
  intros Hin Hlt.
  assert (Hinst : instantaneous e -> In tm (timers (step user employer s e))).
  { intros Hi. exact (proj2 (step_instantaneous user employer s e Hi) tm Hin). }
  destruct e; try (apply Hinst; exact I).
  cbn [step] in *. rewrite now_elapse in Hlt.
  now apply elapse_keeps_waiting_timer.
Qed.

Lemma run_keeps_waiting_timer (events : list Event) (s : State) (tm : Timer) :
  In tm (timers s) -> now (run user employer events s) < due tm ->
  In tm (timers (run user employer events s)).
Proof.
  revert s. induction events as [|e events IH]; intros s Hin Hlt; [exact Hin|].
  change (run user employer (e :: events) s)
    with (run user employer events (step user employer s e)) in *.
  apply IH; [|exact Hlt]. apply step_keeps_waiting_timer; [exact Hin|].
  pose proof (now_run user employer events (step user employer s e)). lia.
Qed.

Lemma scan_click (s : State) :
  activeTab s = TabAdvance -> showBiometric s = true -> scanning s = false ->
  step user employer s ClickScan = handleBiometric s.
Proof.
  intros Htab Hshow Hscan. cbn [step].
  now rewrite (onAdvance_true s Htab), Hshow, Hscan.
Qed.

(** Once the scan is started, whatever happens until the clock reads two
    seconds more, the approval toast is appended at that reading. *)
Lemma started_scan_is_approved (s : State) (events : list Event) :
  consistent s ->
  activeTab s = TabAdvance -> showBiometric s = true -> scanning s = false ->
  let s1 := run user employer events (step user employer s ClickScan) in
  now s1 < now s + 2000 ->
  In (approvalToast employer (amount s) (now s + 2000))
     (notifications (elapse employer (Z.to_N (now s + 2000 - now s1)) s1)).
Proof.
  intros Hc Htab Hshow Hscan s1 Hlt. subst s1.
  rewrite (scan_click s Htab Hshow Hscan) in *.
  set (s1 := run user employer events (handleBiometric s)) in *.
  set (tm := {| due := now s + 2000;
                callback := ScanDone (advanceInstance s) (amount s) |}).
  assert (Hc1 : consistent s1).
  { apply run_consistent. now apply handleBiometric_consistent. }
  assert (Hin : In tm (timers s1)).
  { apply run_keeps_waiting_timer; [|exact Hlt].
    simpl. apply in_or_app. right. left. reflexivity. }
  set (k := Z.to_N (now s + 2000 - now s1 - 1)).
  assert (Hk : Z.to_N (now s + 2000 - now s1) = N.succ k).
  { subst k. lia. }
  assert (Hdue : now s1 + Z.of_N (N.succ k) = now s + 2000).
  { subst k. lia. }
  rewrite Hk, <- Hdue.
  apply (pending_scan_fires employer k s1 (advanceInstance s) (amount s) Hc1).
  rewrite Hdue. exact Hin.
Qed.

Lemma scan_click_is_approved (s : State) :
  consistent s ->
  activeTab s = TabAdvance -> showBiometric s = true -> scanning s = false ->
  In (approvalToast employer (amount s) (now s + 2000))
     (notifications (run user employer [ClickScan; Elapse 2000] s)).
Proof.
  intros Hc Htab Hshow Hscan.
  pose proof (started_scan_is_approved s [] Hc Htab Hshow Hscan) as H.
  cbv zeta in H. unfold run in *. cbn [fold_left] in *.
  rewrite (scan_click s Htab Hshow Hscan) in *.
  change (now (handleBiometric s)) with (now s) in H.
  replace (now s + 2000 - now s) with 2000 in H by lia.
  change (Z.to_N 2000) with 2000%N in H.
  cbn [step]. apply H. lia.
Qed.

(** The events of the signed-in screens add success toasts only. *)
Section Toasts.

Variable P : Notification.t -> Prop.
Hypothesis success_P : forall n, Notification.type n = success -> P n.




End Toasts.




End Scans.



Lemma run_cons (user : option User.t) (employer : option Employer.t)
    (e : Event) (events : list Event) (s : State) :
  run user employer (e :: events) s
  = run user employer events (step user employer s e).
Proof. reflexivity. Qed.

(** C5. A click on the enabled request button of the advance screen, with
    the modal closed: for a user with biometrics enabled it opens the
    step-up modal, idle, and nothing else happens, so that no approval is
    announced and no timer is registered; for a user without, it processes
    the advance at once, with the approval toast, and the modal stays
    closed and no scan is started. *)
Theorem submit_goes_through_step_up_iff_biometric :
  forall (u : User.t) (employer : option Employer.t) (s : State),
    activeTab s = TabAdvance ->
    submitDisabled s = false -> showBiometric s = false ->
    let s' := step (Some u) employer s ClickRequestAdvance in
    (User.biometricEnabled u = true ->
       showBiometric s' = true /\ scanning s' = false
       /\ notifications s' = notifications s /\ timers s' = timers s
       /\ amount s' = amount s)
    /\ (User.biometricEnabled u = false ->
          showBiometric s' = false /\ scanning s' = scanning s
          /\ notifications s'
             = notifications s ++ [approvalToast employer (amount s) (now s)]
          /\ timers s'
             = timers s
               ++ [expiryTimer (approvalToast employer (amount s) (now s))]
          /\ amount s' = "").
Proof.
  intros u employer s Htab Hen Hclosed s'. subst s'.
  rewrite (request_click u employer s Htab Hen). split; intros Hb.
  - rewrite (handleSubmit_biometric u employer s Hb). simpl.
    rewrite Hclosed. repeat split.
  - rewrite (handleSubmit_plain u employer s Hb). simpl.
    rewrite Hclosed. repeat split.
Qed.

Lemma submit_goes_through_step_up_iff_biometric_witness :
  let typed := [ClickTab TabAdvance; ChangeAmount "500"] in
  let s1 := run (Some thabo) (Some techCorp) typed (initialState 1704958200000) in
  let s2 := run (Some sarah) (Some retailHub) typed (initialState 1704958200000) in
  (showBiometric (step (Some thabo) (Some techCorp) s1 ClickRequestAdvance) = true
   /\ notifications (step (Some thabo) (Some techCorp) s1 ClickRequestAdvance) = [])
  /\ (showBiometric (step (Some sarah) (Some retailHub) s2 ClickRequestAdvance)
      = false
      /\ notifications (step (Some sarah) (Some retailHub) s2 ClickRequestAdvance)
         = [approvalToast (Some retailHub) "500" 1704958200000]).
Proof.
  intros typed s1 s2.
  destruct (submit_goes_through_step_up_iff_biometric thabo (Some techCorp) s1
              eq_refl eq_refl eq_refl) as [Hbio _].
  destruct (submit_goes_through_step_up_iff_biometric sarah (Some retailHub) s2
              eq_refl eq_refl eq_refl) as [_ Hplain].
  destruct (Hbio eq_refl) as (H1 & _ & H2 & _).
  destruct (Hplain eq_refl) as (H3 & _ & H4 & _).
  repeat split; assumption.
Defined.




(** C4 (as amended). For an amount that is zero or negative the fee
    computation raises nothing: it returns the number
    [min(flat + amount * percentage, max)]. The only guard is on the request
    button, which is disabled while the parsed amount is at most zero, so
    that a click on it changes nothing, while the preview still shows the
    fee; [processAdvance] itself checks nothing: it approves such an amount
    with that fee, as it does when the amount is typed while the step-up
    modal is open and the scan is then started. *)
Theorem calculateFee_of_non_positive_amount :
  forall (user : option User.t) (e : Employer.t) (a : Q),
    (a <= 0)%Q ->
    let fs := Employer.feeStructure e in
    let fee := Qmin (FeeStructure.flat fs + a * FeeStructure.percentage fs)
                    (FeeStructure.max fs) in
    calculateFee (Some e) (Num a) = Num fee
    /\ (forall s : State,
           parseFloat (amount s) = Num a ->
           feePreview (Some e) s = Some (calculateFee (Some e) (Num a))
           /\ submitDisabled s = true
           /\ step user (Some e) s ClickRequestAdvance = s)
    /\ (forall (s : State) (i : N) (typed : string),
           parseFloat typed = Num a ->
           notifications (processAdvance (Some e) i typed s)
           = notifications s
             ++ [{| Notification.id := pretty (now s);
                    Notification.type := success;
                    Notification.message := AdvanceApproved (Num a) (Num fee);
                    Notification.timestamp := now s;
                    Notification.read := false |}])
    /\ (forall (s : State) (typed : string),
           reachable user (Some e) s ->
           activeTab s = TabAdvance -> showBiometric s = true ->
           scanning s = false ->
           parseFloat typed = Num a ->
           In {| Notification.id := pretty (now s + 2000);
                 Notification.type := success;
                 Notification.message := AdvanceApproved (Num a) (Num fee);
                 Notification.timestamp := now s + 2000;
                 Notification.read := false |}
              (notifications
                 (run user (Some e)
                      [ChangeAmount typed; ClickScan; Elapse 2000] s))).
Proof.
  intros user e a Ha fs fee.
  assert (Hfee : calculateFee (Some e) (Num a) = Num fee) by apply calculateFee_Num.
  split; [exact Hfee|]. split; [|split].
  - intros s Hparse.
    pose proof (parsed_amount_not_empty s a Hparse) as Hne.
    assert (Hdis : submitDisabled s = true).
    { unfold submitDisabled. rewrite Hparse. apply orb_true_iff. right.
      apply num_leb_Num. exact Ha. }
    split.
    + unfold feePreview. rewrite Hparse.
      destruct (String.eqb_spec (amount s) ""); [contradiction|reflexivity].
    + split; [exact Hdis|]. simpl. rewrite Hdis, andb_false_r. reflexivity.
  - intros s i typed Hparse.
    rewrite (proj1 (proj2 (processAdvance_effects (Some e) i typed s))).
    unfold approvalToast. now rewrite Hparse, Hfee.
  - intros s typed Hreach Htab Hshow Hscan Hparse.
    set (s1 := step user (Some e) s (ChangeAmount typed)).
    assert (Hs1 : s1 = setAmount typed s).
    { subst s1. cbn [step]. now rewrite (onAdvance_true s Htab). }
    assert (Hc1 : consistent s1).
    { apply (reachable_consistent user (Some e)). now constructor. }
    assert (Htab1 : activeTab s1 = TabAdvance) by (rewrite Hs1; exact Htab).
    assert (Hshow1 : showBiometric s1 = true) by (rewrite Hs1; exact Hshow).
    assert (Hscan1 : scanning s1 = false) by (rewrite Hs1; exact Hscan).
    assert (Ham1 : amount s1 = typed) by (rewrite Hs1; reflexivity).
    assert (Hnow1 : now s1 = now s) by (rewrite Hs1; reflexivity).
    rewrite run_cons. fold s1. clearbody s1.
    pose proof (scan_click_is_approved user (Some e) s1 Hc1 Htab1 Hshow1 Hscan1)
      as H.
    rewrite Ham1, Hnow1 in H. unfold approvalToast in H.
    rewrite Hparse, Hfee in H. exact H.
Qed.

Lemma calculateFee_of_non_positive_amount_witness :
  let s := run (Some thabo) (Some techCorp)
               [ClickTab TabAdvance; ChangeAmount "500"; ClickRequestAdvance]
               (initialState 1000) in
  let s' := run (Some thabo) (Some techCorp) [ChangeAmount "-100"] s in
  (-100 <= 0)%Q
  /\ num_eq (calculateFee (Some techCorp) (Num (-100))) (Num 24)
  /\ submitDisabled s' = true
  /\ In {| Notification.id := "3000";
           Notification.type := success;
           Notification.message :=
             AdvanceApproved
               (Num (-100))
               (Num (Qmin (FeeStructure.flat (Employer.feeStructure techCorp)
                           + -100 * FeeStructure.percentage
                                      (Employer.feeStructure techCorp))
                          (FeeStructure.max (Employer.feeStructure techCorp))));
           Notification.timestamp := 3000;
           Notification.read := false |}
        (notifications
           (run (Some thabo) (Some techCorp)
                [ChangeAmount "-100"; ClickScan; Elapse 2000] s)).
Proof.
  intros s s'.
  assert (Hreach : reachable (Some thabo) (Some techCorp) s).
  { apply (reachable_step _ _ _ ClickRequestAdvance).
    apply (reachable_step _ _ _ (ChangeAmount "500")).
    apply (reachable_step _ _ _ (ClickTab TabAdvance)). constructor. }
  assert (Hle : (-100 <= 0)%Q) by (intro H; discriminate H).
  assert (Hparse : parseFloat "-100" = Num (-100)) by reflexivity.
  assert (Hparse' : parseFloat (amount s') = Num (-100)) by reflexivity.
  destruct (calculateFee_of_non_positive_amount (Some thabo) techCorp (-100)%Q Hle)
    as (Hfee & Hui & _ & Hscan).
  destruct (Hui s' Hparse') as (_ & Hdis & _).
  split; [exact Hle|]. split; [rewrite Hfee; reflexivity|].
  split; [exact Hdis|].
  exact (Hscan s "-100" Hreach eq_refl eq_refl eq_refl Hparse).
Defined.

(** Cancelling the modal touches the two modal flags only. *)
Lemma onCancel_frame (s : State) :
  showBiometric (onCancel s) = false
  /\ amount (onCancel s) = amount s
  /\ paymentMethod (onCancel s) = paymentMethod s
  /\ notifications (onCancel s) = notifications s
  /\ timers (onCancel s) = timers s
  /\ transactions (onCancel s) = transactions s.
Proof. repeat split. Qed.


(** C6. The failing run: with biometrics enabled, the amount 500 is typed
    and requested, the scan is started and then cancelled. The cancellation
    closes the modal and keeps the amount, but the scan timer is still
    waiting; two seconds later it approves the advance and clears the
    amount. *)
Theorem cancel_during_scan_still_approves :
  let t0 := 1704958200000 in
  let s0 := run (Some thabo) (Some techCorp)
                [ClickTab TabAdvance; ChangeAmount "500"; ClickRequestAdvance;
                 ClickScan]
                (initialState t0) in
  let s1 := step (Some thabo) (Some techCorp) s0 ClickCancel in
  let s2 := step (Some thabo) (Some techCorp) s1 (Elapse 2000) in
  (showBiometric s0 = true /\ scanning s0 = true)
  /\ (showBiometric s1 = false /\ amount s1 = "500" /\ notifications s1 = []
      /\ timers s1 = [{| due := t0 + 2000; callback := ScanDone 1 "500" |}])
  /\ (notifications s2 = [approvalToast (Some techCorp) "500" (t0 + 2000)]
      /\ amount s2 = "").
Proof. vm_compute. repeat split. Qed.




(** ** Toast expiry and toast ids *)

Lemma addNotification_shows (ty : NotificationType) (msg : Message) (s : State) :
  In (newNotification ty msg s) (notifications (addNotification ty msg s)).
Proof. simpl. apply in_or_app. right. left. reflexivity. Qed.

Lemma run_Elapse (user : option User.t) (employer : option Employer.t)
    (ms : N) (s : State) :
  run user employer [Elapse ms] s = elapse employer ms s.
Proof. reflexivity. Qed.

(** C8. A toast pushed when the clock reads T, and not dismissed by a
    click, is on display as long as the clock reads less than T + 5000
    milliseconds and is gone, with every toast of its id, once the clock
    reads T + 5000 or more, whatever else happens; in particular it is on
    display 4000 milliseconds after the push and gone 6000 milliseconds
    after it. *)
Theorem toast_expires_after_five_seconds :
  forall (user : option User.t) (employer : option Employer.t) (s : State)
         (ty : NotificationType) (msg : Message),
    reachable user employer s ->
    let n := newNotification ty msg s in
    let pushed := addNotification ty msg s in
    (forall events : list Event,
        Forall (keepsToast (Notification.id n)) events ->
        let s' := run user employer events pushed in
        (now s' < now s + 5000 -> In n (notifications s'))
        /\ (now s + 5000 <= now s' ->
            forall n', In n' (notifications s') ->
                       Notification.id n' <> Notification.id n))
    /\ In n (notifications (elapse employer 4000 pushed))
    /\ ~ In n (notifications (elapse employer 6000 pushed)).
Proof.
  intros user employer s ty msg Hreach n pushed.
  assert (Hc : consistent pushed).
  { apply addNotification_consistent. now apply (reachable_consistent user employer). }
  assert (Hgen : forall events : list Event,
             Forall (keepsToast (Notification.id n)) events ->
             let s' := run user employer events pushed in
             (now s' < now s + 5000 -> In n (notifications s'))
             /\ (now s + 5000 <= now s' ->
                 forall n', In n' (notifications s') ->
                            Notification.id n' <> Notification.id n)).
  { intros events Hkeep s'. split.
    - intros Hlt. apply (run_keeps_toast user employer events pushed n (now s)); auto.
      apply addNotification_shows.
    - intros Hge n' Hin Hid.
      assert (Hc' : consistent s') by now apply run_consistent.
      pose proof (displayed_toast_is_young s' n' Hc' Hin) as Hyoung.
      destruct Hc' as [_ Hn].
      destruct (proj1 (List.Forall_forall _ _) Hn n' Hin) as [Hid' _].
      rewrite Hid' in Hid. simpl in Hid. apply (inj pretty) in Hid.
      unfold Date_now in Hid. lia. }
  split; [exact Hgen|].
  assert (Hnow : forall ms, now (run user employer [Elapse ms] pushed)
                            = now s + Z.of_N ms).
  { intros ms. rewrite run_Elapse, now_elapse. reflexivity. }
  assert (Hkeep : forall ms, Forall (keepsToast (Notification.id n)) [Elapse ms]).
  { intros ms. constructor; [exact I|constructor]. }
  split.
  - rewrite <- (run_Elapse user employer 4000 pushed).
    apply (proj1 (Hgen [Elapse 4000] (Hkeep 4000%N))).
    rewrite Hnow. change (Z.of_N 4000) with 4000. lia.
  - rewrite <- (run_Elapse user employer 6000 pushed). intros Hin.
    apply (proj2 (Hgen [Elapse 6000] (Hkeep 6000%N)))
      with (n' := n); [|exact Hin|reflexivity].
    rewrite Hnow. change (Z.of_N 6000) with 6000. lia.
Qed.

Lemma toast_expires_after_five_seconds_witness :
  let s := run (Some sarah) (Some retailHub) [ClickTab TabVouchers]
               (initialState 1704958200000) in
  let n := newNotification success (VoucherPurchased "R50 Airtime") s in
  let pushed := step (Some sarah) (Some retailHub) s (ClickBuyNow vodacomAirtime) in
  In n (notifications (elapse (Some retailHub) 4000 pushed))
  /\ ~ In n (notifications (elapse (Some retailHub) 6000 pushed)).
Proof.
  intros s n pushed.
  assert (Hreach : reachable (Some sarah) (Some retailHub) s).
  { apply (reachable_step _ _ _ (ClickTab TabVouchers)). constructor. }
  exact (proj2 (toast_expires_after_five_seconds (Some sarah) (Some retailHub) s
                  success (VoucherPurchased "R50 Airtime") Hreach)).
Defined.

(** Toasts created at different clock readings have different ids. *)
Lemma toasts_of_different_times_differ (ty1 ty2 : NotificationType)
    (msg1 msg2 : Message) (s1 s2 : State) :
  now s1 <> now s2 ->
  Notification.id (newNotification ty1 msg1 s1)
  <> Notification.id (newNotification ty2 msg2 s2).
Proof. intros Hne. simpl. unfold Date_now. now apply pretty_Z_ne. Qed.

(** C9. The failing run: two toasts pushed while the clock shows the same
    millisecond get the same id, although they are different toasts; here
    two vouchers bought on the marketplace, after which a click on one of
    the two toasts removes both. In general the id of a toast is the clock
    reading at its creation, in decimal. *)
Theorem toasts_of_one_millisecond_share_their_id :
  (forall (ty1 ty2 : NotificationType) (msg1 msg2 : Message) (s : State),
      Notification.id (newNotification ty2 msg2 (addNotification ty1 msg1 s))
      = Notification.id (newNotification ty1 msg1 s))
  /\ (let s := run (Some sarah) (Some retailHub)
                   [ClickTab TabVouchers; ClickBuyNow vodacomAirtime;
                    ClickBuyNow mtnDataBundle]
                   (initialState 1704958200000) in
      map Notification.id (notifications s) = ["1704958200000"; "1704958200000"]
      /\ map Notification.message (notifications s)
         = [VoucherPurchased "R50 Airtime"; VoucherPurchased "1GB Data Bundle"]
      /\ notifications
           (step (Some sarah) (Some retailHub) s (ClickToast "1704958200000"))
         = []).
Proof.
  split; [reflexivity|]. vm_compute. repeat split.
Qed.

(** The clock reading of the examples, 1704958200000, is the time value of
    11 January 2024, 09:30, two hours ahead of UTC. *)
Example clock_of_the_examples :
  JsDate.getTime utcPlusTwo eleventhOfJanuary = 1704958200000.
Proof. reflexivity. Qed.

(** * Further properties *)

(** ** Strings *)

Lemma append_String (c : ascii) (a b : string) :
  String.append (String c a) b = String c (String.append a b).
Proof. reflexivity. Qed.

Lemma prefix_iff (t s : string) :
  String.prefix t s = true <-> exists b, s = String.append t b.
Proof.
  revert s. induction t as [|c t IH]; intros s.
  - split; [intros _; now exists s|]. intros _. destruct s; reflexivity.
  - destruct s as [|d s]; simpl.
    + split; [discriminate|]. intros [b Hb]. discriminate Hb.
    + destruct (Ascii.ascii_dec c d) as [->|Hne].
      * rewrite IH. split; intros [b Hb]; exists b;
          rewrite append_String in *; congruence.
      * split; [discriminate|]. intros [b Hb].
        rewrite append_String in Hb. congruence.
Qed.

Lemma includes_iff (s t : string) :
  includes s t = true
  <-> exists a b, s = String.append a (String.append t b).
Proof.
  induction s as [|c s IH].
  - cbn [includes]. rewrite orb_false_r, prefix_iff. split.
    + intros [b Hb]. now exists EmptyString, b.
    + intros (a & b & H). destruct a; [now exists b|discriminate H].
  - cbn [includes]. rewrite orb_true_iff, prefix_iff, IH. split.
    + intros [[b Hb]|(a & b & Hab)].
      * now exists EmptyString, b.
      * exists (String c a), b. rewrite append_String. now rewrite Hab.
    + intros (a & b & H). destruct a as [|d a].
      * left. now exists b.
      * right. exists a, b. rewrite append_String in H. congruence.
Qed.

Lemma includes_empty (s : string) : includes s "" = true.
Proof. destruct s; reflexivity. Qed.

Lemma append_assoc (a b c : string) :
  String.append (String.append a b) c = String.append a (String.append b c).
Proof.
  induction a as [|x a IH]; [reflexivity|].
  now rewrite !append_String, IH.
Qed.

Lemma toLowerCase_append (a b : string) :
  toLowerCase (String.append a b)
  = String.append (toLowerCase a) (toLowerCase b).
Proof.
  induction a as [|x a IH]; [reflexivity|].
  rewrite append_String. cbn [toLowerCase]. now rewrite append_String, IH.
Qed.

Lemma toLowerChar_idempotent (c : ascii) : toLowerChar (toLowerChar c) = toLowerChar c.
Proof.
  destruct c as [[] [] [] [] [] [] [] []]; reflexivity.
Qed.

Lemma toLowerCase_idempotent (s : string) : toLowerCase (toLowerCase s) = toLowerCase s.
Proof.
  induction s as [|c s IH]; simpl; [reflexivity|].
  now rewrite toLowerChar_idempotent, IH.
Qed.

(** Typing more narrows what a text is found in. *)
Lemma includes_longer_term (s t u : string) :
  includes s (String.append t u) = true -> includes s t = true.
Proof.
  rewrite !includes_iff. intros (a & b & H).
  exists a, (String.append u b). now rewrite H, append_assoc.
Qed.

(** ** Catalogue search *)

(** X1. With the category ['all'] and an empty search box the whole
    catalogue is listed. *)
Theorem search_without_criteria_lists_everything :
  forall catalogue : list Voucher.t,
    filteredVouchers AllCategories "" catalogue = catalogue.
Proof.
  intros catalogue. unfold filteredVouchers.
  induction catalogue as [|v l IH]; [reflexivity|].
  cbn [List.filter].
  assert (Hv : matchesCategory AllCategories v && matchesSearch "" v = true).
  { unfold matchesSearch. cbn [toLowerCase matchesCategory].
    now rewrite includes_empty. }
  now rewrite Hv, IH.
Qed.

Lemma matchesSearch_iff (term : string) (v : Voucher.t) :
  matchesSearch term v = true
  <-> exists a b,
      toLowerCase (Voucher.name v)
      = String.append a (String.append (toLowerCase term) b)
      \/ toLowerCase (Voucher.provider v)
         = String.append a (String.append (toLowerCase term) b).
Proof.
  unfold matchesSearch. rewrite orb_true_iff, !includes_iff. split.
  - intros [(a & b & H)|(a & b & H)]; exists a, b; auto.
  - intros (a & b & [H|H]); [left|right]; now exists a, b.
Qed.

(** X2. A voucher is listed exactly when it is in the catalogue, its
    category is the chosen one (any, for ['all']) and the search term occurs,
    whatever the case of its letters, in its name or in its provider; the
    listing keeps the order of the catalogue. *)
Theorem search_lists_exactly_the_matches :
  forall (category : CategoryFilter) (term : string)
         (catalogue : list Voucher.t),
    (forall v : Voucher.t,
        In v (filteredVouchers category term catalogue)
        <-> In v catalogue
            /\ (category = AllCategories
                \/ category = OnlyCategory (Voucher.category v))
            /\ exists a b,
                toLowerCase (Voucher.name v)
                = String.append a (String.append (toLowerCase term) b)
                \/ toLowerCase (Voucher.provider v)
                   = String.append a (String.append (toLowerCase term) b))
    /\ sublist (filteredVouchers category term catalogue) catalogue.
Proof.
  intros category term catalogue. split.
  - intros v. unfold filteredVouchers. rewrite List.filter_In, andb_true_iff.
    rewrite matchesSearch_iff.
    assert (Hcat : matchesCategory category v = true
                   <-> category = AllCategories
                       \/ category = OnlyCategory (Voucher.category v)).
    { destruct category as [|c]; simpl.
      - split; auto.
      - split.
        + intros H. right. f_equal.
          destruct (Voucher.category v), c; simpl in H; congruence.
        + intros [H|H]; [discriminate|]. injection H as ->.
          destruct (Voucher.category v); reflexivity. }
    rewrite Hcat. tauto.
  - unfold filteredVouchers.
    induction catalogue as [|v l IH]; simpl; [constructor|].
    destruct (matchesCategory category v && matchesSearch term v).
    + now apply sublist_skip.
    + now apply sublist_cons.
Qed.


(** X3. Typing more characters, or choosing a category, only removes
    vouchers from the listing. *)
Theorem search_narrows :
  forall (category : CategoryFilter) (term more : string)
         (catalogue : list Voucher.t) (v : Voucher.t),
    In v (filteredVouchers category (String.append term more) catalogue) ->
    In v (filteredVouchers category term catalogue)
    /\ In v (filteredVouchers AllCategories term catalogue).
Proof.
  intros category term more catalogue v. unfold filteredVouchers.
  rewrite !List.filter_In, !andb_true_iff. intros (Hin & Hcat & Hs).
  assert (Hs' : matchesSearch term v = true).
  { unfold matchesSearch in *. rewrite toLowerCase_append in Hs.
    apply orb_true_iff in Hs. apply orb_true_iff.
    destruct Hs as [H|H]; [left|right]; now apply includes_longer_term in H. }
  repeat split; assumption.
Qed.

Lemma search_narrows_witness :
  In vodacomAirtime
     (filteredVouchers (OnlyCategory mobile) (String.append "voda" "COM")
                       mockVouchers)
  /\ In vodacomAirtime (filteredVouchers (OnlyCategory mobile) "voda" mockVouchers)
  /\ In vodacomAirtime (filteredVouchers AllCategories "voda" mockVouchers).
Proof.
  assert (H : In vodacomAirtime
                 (filteredVouchers (OnlyCategory mobile)
                                   (String.append "voda" "COM") mockVouchers)).
  { vm_compute. left. reflexivity. }
  split; [exact H|].
  exact (search_narrows (OnlyCategory mobile) "voda" "COM" mockVouchers
                        vodacomAirtime H).
Defined.

(** ** More on fees *)

Lemma Qmin_mono_l (x y z : Q) : (x <= y)%Q -> (Qmin x z <= Qmin y z)%Q.
Proof.
  intros H. apply Q.min_glb.
  - pose proof (Q.le_min_l x z). lra.
  - apply Q.le_min_r.
Qed.

(** X4. With a non-negative percentage the fee never decreases when the
    amount grows, and neither does the total to repay. *)
Theorem fee_grows_with_amount :
  forall (e : Employer.t) (a b : Q),
    (0 <= FeeStructure.percentage (Employer.feeStructure e))%Q ->
    (a <= b)%Q ->
    exists fa fb : Q,
      calculateFee (Some e) (Num a) = Num fa
      /\ calculateFee (Some e) (Num b) = Num fb
      /\ (fa <= fb)%Q
      /\ (a + fa <= b + fb)%Q.
Proof.
  intros e a b Hp Hab. eexists. eexists.
  split; [apply calculateFee_Num|]. split; [apply calculateFee_Num|].
  set (fs := Employer.feeStructure e) in *.
  assert (Hmul : (a * FeeStructure.percentage fs <= b * FeeStructure.percentage fs)%Q).
  { apply Qmult_le_compat_r; assumption. }
  assert (Hle : (Qmin (FeeStructure.flat fs + a * FeeStructure.percentage fs)
                      (FeeStructure.max fs)
                 <= Qmin (FeeStructure.flat fs + b * FeeStructure.percentage fs)
                         (FeeStructure.max fs))%Q).
  { apply Qmin_mono_l. lra. }
  split; [exact Hle|]. lra.
Qed.

Lemma fee_grows_with_amount_witness :
  exists fa fb : Q,
    calculateFee (Some techCorp) (Num 100) = Num fa
    /\ calculateFee (Some techCorp) (Num 500) = Num fb
    /\ (fa <= fb)%Q
    /\ (100 + fa <= 500 + fb)%Q.
Proof.
  apply (fee_grows_with_amount techCorp 100 500).
  - simpl. lra.
  - lra.
Defined.

(** X5. A fee is never negative when the structure and the amount are not. *)
Theorem fee_is_not_negative :
  forall (e : Employer.t) (a : Q),
    let fs := Employer.feeStructure e in
    (0 <= FeeStructure.flat fs)%Q -> (0 <= FeeStructure.percentage fs)%Q ->
    (0 <= FeeStructure.max fs)%Q -> (0 <= a)%Q ->
    exists fee : Q, calculateFee (Some e) (Num a) = Num fee /\ (0 <= fee)%Q.
Proof.
  intros e a fs Hf Hp Hm Ha. eexists. split; [apply calculateFee_Num|].
  fold fs. apply Q.min_glb; [|exact Hm].
  assert (0 <= a * FeeStructure.percentage fs)%Q
    by (apply Qmult_le_0_compat; assumption).
  lra.
Qed.

Lemma fee_is_not_negative_witness :
  exists fee : Q, calculateFee (Some techCorp) (Num 500) = Num fee /\ (0 <= fee)%Q.
Proof.
  apply (fee_is_not_negative techCorp 500); simpl; lra.
Defined.

(** X6. Without an employer the fee is 0 whatever the amount, even for
    an amount that is not a number, and the ceiling uses the cap 0.25; with
    an employer the fee of an amount that is not a number is not a number
    either. *)
Theorem fee_and_ceiling_without_employer :
  forall (utcOffset : Z) (u : User.t) (employers : list Employer.t)
         (today : JsDate.t) (amt : number),
    (forall e, In e employers -> Employer.id e <> User.employerId u) ->
    findEmployer employers (Some u) = None
    /\ calculateFee (findEmployer employers (Some u)) amt = Num 0
    /\ available utcOffset (Some u) (findEmployer employers (Some u)) today
       = (calculateEarnedToDate utcOffset (Some u) today * (25 # 100))%Q.
Proof.
  intros utcOffset u employers today amt Hnone.
  assert (H : findEmployer employers (Some u) = None).
  { unfold findEmployer. induction employers as [|e l IH]; [reflexivity|].
    cbn [List.find].
    destruct (String.eqb_spec (Employer.id e) (User.employerId u)) as [Heq|_].
    - exfalso. apply (Hnone e); [now left|exact Heq].
    - apply IH. intros e' He'. apply Hnone. now right. }
  rewrite H. repeat split.
Qed.

Lemma fee_and_ceiling_without_employer_witness :
  findEmployer [retailHub; healthCarePlus] (Some thabo) = None
  /\ calculateFee (findEmployer [retailHub; healthCarePlus] (Some thabo)) (Num 500)
     = Num 0
  /\ available utcPlusTwo (Some thabo)
               (findEmployer [retailHub; healthCarePlus] (Some thabo))
               eleventhOfJanuary
     = (calculateEarnedToDate utcPlusTwo (Some thabo) eleventhOfJanuary
        * (25 # 100))%Q.
Proof.
  apply (fee_and_ceiling_without_employer utcPlusTwo thabo
           [retailHub; healthCarePlus] eleventhOfJanuary (Num 500)).
  intros e [<-|[<-|[]]]; discriminate.
Defined.

(** ** Printing and parsing whole numbers *)

Lemma digit_cases (d : N) :
  (d < 10)%N ->
  d = 0%N \/ d = 1%N \/ d = 2%N \/ d = 3%N \/ d = 4%N \/ d = 5%N
  \/ d = 6%N \/ d = 7%N \/ d = 8%N \/ d = 9%N.
Proof. lia. Qed.

Lemma digitValue_pretty_N_char (d : N) :
  (d < 10)%N -> digitValue (pretty_N_char d) = Some (Z.of_N d).
Proof.
  intros H. destruct (digit_cases d H) as [->|[->|[->|[->|[->|[->|[->|[->|[->| ->]]]]]]]]];
    reflexivity.
Qed.

Lemma readDigits_pretty_N_go (x : N) :
  forall (s : string) (acc n : Z),
    exists k : Z,
      0 <= k /\ ((0 < x)%N -> 0 < k)
      /\ readDigits (pretty_N_go x s) acc n
         = readDigits s (acc * 10 ^ k + Z.of_N x) (n + k).
Proof.
  induction (N.lt_wf_0 x) as [x _ IH]. intros s acc n.
  destruct (N.eq_dec x 0%N) as [->|Hx].
  - exists 0. rewrite pretty_N_go_0. repeat split; try lia.
    f_equal; lia.
  - assert (Hpos : (0 < x)%N) by lia.
    rewrite (pretty_N_go_step x s Hpos).
    destruct (IH (x `div` 10)%N (N.div_lt x 10 Hpos eq_refl)
                (String (pretty_N_char (x `mod` 10)) s) acc n)
      as (k & Hk0 & _ & Hk).
    exists (k + 1). split; [lia|]. split; [lia|].
    rewrite Hk. cbn [readDigits].
    rewrite digitValue_pretty_N_char by (apply N.mod_lt; lia).
    f_equal; [|lia].
    rewrite Z.pow_add_r by lia.
    pose proof (N.div_mod x 10 ltac:(lia)) as Hdm.
    apply (f_equal Z.of_N) in Hdm. rewrite N2Z.inj_add, N2Z.inj_mul in Hdm.
    change (Z.of_N 10) with 10 in Hdm. lia.
Qed.

Lemma pretty_N_go_head (x : N) :
  forall s : string,
    (0 < x)%N ->
    exists (d : N) (rest : string),
      (d < 10)%N /\ pretty_N_go x s = String (pretty_N_char d) rest.
Proof.
  induction (N.lt_wf_0 x) as [x _ IH]. intros s Hpos.
  rewrite (pretty_N_go_step x s Hpos).
  destruct (N.eq_dec (x `div` 10)%N 0%N) as [Hz|Hnz].
  - rewrite Hz, pretty_N_go_0. exists (x `mod` 10)%N, s.
    split; [apply N.mod_lt; lia|reflexivity].
  - apply IH.
    + apply N.div_lt; [exact Hpos|reflexivity].
    + apply N.neq_0_lt_0. exact Hnz.
Qed.

(** The decimal text of a positive whole number parses back to it. *)
Lemma parseFloat_pretty (p : positive) :
  exists q : Q, parseFloat (pretty (Zpos p)) = Num q /\ (q == inject_Z (Zpos p))%Q.
Proof.
  change (pretty (Z.pos p)) with (pretty_N_go (N.pos p) "").
  destruct (pretty_N_go_head (N.pos p) "" eq_refl) as (d & rest & Hd & Hhead).
  destruct (readDigits_pretty_N_go (N.pos p) "" 0 0) as (k & Hk0 & Hk & Hread).
  specialize (Hk eq_refl).
  unfold parseFloat.
  assert (Hsign : readSign (skipWhiteSpace (pretty_N_go (N.pos p) ""))
                  = (1, pretty_N_go (N.pos p) "")).
  { rewrite Hhead.
    destruct (digit_cases d Hd) as [->|[->|[->|[->|[->|[->|[->|[->|[->| ->]]]]]]]]];
      reflexivity. }
  rewrite Hsign, Hread. cbn [readDigits readExponent].
  destruct (Z.eqb_spec (0 + k + 0) 0) as [Hz|_]; [lia|].
  eexists. split; [reflexivity|].
  change (Z.of_N (N.pos p)) with (Z.pos p).
  rewrite Z.mul_0_l, Z.add_0_l. unfold Qdiv. simpl. ring.
Qed.

(** ** The request button *)

(** X7. A preset amount, which is a positive whole number, is written as
    its decimal text and read back as the same number: after a click on a
    preset the request button is enabled and the preview shows the fee of
    that amount. *)
Theorem preset_amount_round_trip :
  forall (user : option User.t) (employer : option Employer.t) (s : State)
         (p : positive),
    activeTab s = TabAdvance ->
    let s1 := step user employer s (ClickPreset (Zpos p)) in
    exists q : Q,
      (q == inject_Z (Zpos p))%Q
      /\ parseFloat (amount s1) = Num q
      /\ submitDisabled s1 = false
      /\ feePreview employer s1 = Some (calculateFee employer (Num q)).
Proof.
  intros user employer s p Htab s1.
  destruct (parseFloat_pretty p) as (q & Hparse & Hq).
  assert (Ham : amount s1 = pretty (Zpos p)).
  { subst s1. cbn [step]. now rewrite (onAdvance_true s Htab). }
  exists q. rewrite Ham. split; [exact Hq|]. split; [exact Hparse|].
  assert (Hne : String.eqb (pretty (Z.pos p)) "" = false).
  { apply String.eqb_neq. intros Hempty. rewrite Hempty in Hparse.
    discriminate Hparse. }
  split.
  - unfold submitDisabled. rewrite Ham, Hparse, Hne. cbn [orb num_leb].
    destruct (Qle_bool q 0) eqn:Hle; [|reflexivity].
    apply Qle_bool_iff in Hle. rewrite Hq in Hle.
    exfalso. revert Hle. unfold Qle. simpl. lia.
  - unfold feePreview. now rewrite Ham, Hne, Hparse.
Qed.

Lemma preset_amount_round_trip_witness :
  let s := step (Some thabo) (Some techCorp) (initialState 1000)
                (ClickTab TabAdvance) in
  let s1 := step (Some thabo) (Some techCorp) s (ClickPreset 500) in
  exists q : Q,
    (q == inject_Z 500)%Q
    /\ parseFloat (amount s1) = Num q
    /\ submitDisabled s1 = false
    /\ feePreview (Some techCorp) s1 = Some (calculateFee (Some techCorp) (Num q)).
Proof.
  intros s.
  apply (preset_amount_round_trip (Some thabo) (Some techCorp) s 500).
  reflexivity.
Defined.

(** X8. The request button is enabled exactly when the amount text is not
    empty and its parsed value is positive or is not a number at all. *)
Theorem request_button_guard :
  forall s : State,
    submitDisabled s = false
    <-> amount s <> ""
        /\ (parseFloat (amount s) = NaN
            \/ exists a : Q, parseFloat (amount s) = Num a /\ (0 < a)%Q).
Proof.
  intros s. unfold submitDisabled. rewrite orb_false_iff, String.eqb_neq.
  split; intros [Hne H]; (split; [exact Hne|]).
  - destruct (parseFloat (amount s)) as [|a]; [now left|right].
    exists a. split; [reflexivity|]. simpl in H.
    apply Qnot_le_lt. intros Hle. apply Qle_bool_iff in Hle. congruence.
  - destruct H as [->|(a & -> & Ha)]; [reflexivity|]. simpl.
    destruct (Qle_bool a 0) eqn:Hle; [|reflexivity].
    apply Qle_bool_iff in Hle. exfalso. apply (Qlt_not_le _ _ Ha Hle).
Qed.

(** X9. A second click on the request button, right after the first,
    changes nothing: the amount was cleared by the approval, or the modal is
    already open. *)
Theorem second_request_click_is_idle :
  forall (user : option User.t) (employer : option Employer.t) (s : State),
    step user employer (step user employer s ClickRequestAdvance)
         ClickRequestAdvance
    = step user employer s ClickRequestAdvance.
Proof.
  intros user employer s.
  assert (Hidle : forall s1 : State,
             onAdvance s1 && negb (submitDisabled s1) = false ->
             step user employer s1 ClickRequestAdvance = s1).
  { intros s1 H. cbn [step]. now rewrite H. }
  assert (Hfirst : step user employer s ClickRequestAdvance
                   = if onAdvance s && negb (submitDisabled s)
                     then handleSubmit user employer s else s) by reflexivity.
  rewrite Hfirst. clear Hfirst.
  destruct (onAdvance s && negb (submitDisabled s)) eqn:Hen.
  - apply andb_true_iff in Hen. destruct Hen as [Htab Hen].
    unfold handleSubmit. destruct (biometricEnabled user) eqn:Hb.
    + cbn [step].
      change (onAdvance (setShowBiometric true s)) with (onAdvance s).
      change (submitDisabled (setShowBiometric true s)) with (submitDisabled s).
      rewrite Htab, Hen. cbn [andb]. unfold handleSubmit. rewrite Hb.
      unfold setShowBiometric. simpl.
      destruct (showBiometric s), (scanning s); reflexivity.
    + apply Hidle. unfold processAdvance, ofInstance. simpl.
      rewrite N.eqb_refl. unfold submitDisabled. simpl.
      now rewrite andb_false_r.
  - now apply Hidle.
Qed.

(** ** What holds in every reachable state *)

(** X10. In every reachable state each waiting timer falls due within the
    next 5000 ms, and each toast on display has a timer waiting that will
    remove the toasts of its id. *)
Theorem toasts_and_timers_are_recent :
  forall (user : option User.t) (employer : option Employer.t) (s : State),
    reachable user employer s ->
    (forall tm, In tm (timers s) -> now s < due tm <= now s + 5000)
    /\ (forall n, In n (notifications s) ->
          exists tm, In tm (timers s)
                     /\ callback tm = RemoveNotification (Notification.id n)
                     /\ now s < due tm <= now s + 5000).
Proof.
  intros user employer s Hreach.
  pose proof (reachable_consistent user employer s Hreach) as [Htm Hn].
  assert (Htimers : forall tm, In tm (timers s) -> now s < due tm <= now s + 5000).
  { intros tm Hin.
    pose proof (proj1 (List.Forall_forall _ _) Htm tm Hin) as [Hlt Hk].
    split; [exact Hlt|]. destruct (callback tm); [tauto|lia]. }
  split; [exact Htimers|].
  intros n Hin.
  destruct (proj1 (List.Forall_forall _ _) Hn n Hin) as (_ & [H|[]]).
  exists (expiryTimer n). split; [exact H|]. split; [reflexivity|].
  now apply Htimers.
Qed.

Lemma toasts_and_timers_are_recent_witness :
  let s := run (Some sarah) (Some retailHub)
               [ClickTab TabVouchers; ClickBuyNow vodacomAirtime; Elapse 3;
                ClickBuyNow mtnDataBundle]
               (initialState 1000) in
  let tm := {| due := 6000; callback := RemoveNotification "1000" |} in
  In tm (timers s) /\ now s < due tm <= now s + 5000.
Proof.
  intros s tm.
  assert (Hreach : reachable (Some sarah) (Some retailHub) s).
  { apply (reachable_step _ _ _ (ClickBuyNow mtnDataBundle)).
    apply (reachable_step _ _ _ (Elapse 3)).
    apply (reachable_step _ _ _ (ClickBuyNow vodacomAirtime)).
    apply (reachable_step _ _ _ (ClickTab TabVouchers)). constructor. }
  assert (Hin : In tm (timers s)) by (vm_compute; left; reflexivity).
  split; [exact Hin|].
  exact (proj1 (toasts_and_timers_are_recent
                  (Some sarah) (Some retailHub) s Hreach) tm Hin).
Defined.

(** Toasts in creation order, none from the future. *)
Lemma ordered_after_toast (l : list Notification.t) (n : Notification.t) (t : Z) :
  inCreationOrder l ->
  Forall (fun m => Notification.timestamp m <= t) l ->
  Notification.timestamp n = t ->
  inCreationOrder (l ++ [n]).
Proof.
  unfold inCreationOrder. intros Hs Hle Hn.
  induction Hs as [|m l Hs IH Hm]; simpl.
  - constructor; constructor.
  - inversion Hle as [|? ? Hmt Hl]; subst. constructor; [now apply IH|].
    apply List.Forall_app. split; [exact Hm|]. constructor; [lia|constructor].
Qed.

Lemma ordered_filter (f : Notification.t -> bool) (l : list Notification.t) :
  inCreationOrder l -> inCreationOrder (List.filter f l).
Proof.
  unfold inCreationOrder. intros Hs.
  induction Hs as [|m l Hs IH Hm]; simpl; [constructor|].
  destruct (f m); [|exact IH]. constructor; [exact IH|].
  apply List.Forall_forall. intros x Hx. apply List.filter_In in Hx.
  exact (proj1 (List.Forall_forall _ _) Hm x (proj1 Hx)).
Qed.

Lemma runCallback_ordered (employer : option Employer.t) (cb : Callback)
    (acc : State) :
  inCreationOrder (notifications acc)
  /\ Forall (fun m => Notification.timestamp m <= now acc) (notifications acc) ->
  inCreationOrder (notifications (runCallback employer cb acc))
  /\ Forall (fun m => Notification.timestamp m <= now (runCallback employer cb acc))
            (notifications (runCallback employer cb acc)).
Proof.
  intros [Hs Hle]. destruct cb as [id|i a].
  - simpl. split; [now apply ordered_filter|].
    apply List.Forall_forall. intros x Hx. apply List.filter_In in Hx.
    exact (proj1 (List.Forall_forall _ _) Hle x (proj1 Hx)).
  - destruct (runCallback_ScanDone employer i a acc) as (H1 & H2 & _).
    rewrite H1, H2. split.
    + now apply (ordered_after_toast _ _ (now acc)).
    + apply List.Forall_app. split; [exact Hle|].
      constructor; [simpl; lia|constructor].
Qed.

Lemma tick_ordered (employer : option Employer.t) (s : State) :
  inCreationOrder (notifications s)
  /\ Forall (fun m => Notification.timestamp m <= now s) (notifications s) ->
  inCreationOrder (notifications (tick employer s))
  /\ Forall (fun m => Notification.timestamp m <= now (tick employer s))
            (notifications (tick employer s)).
Proof.
  intros [Hs Hle]. unfold tick.
  apply (fold_runCallback_preserves employer
           (fun acc => inCreationOrder (notifications acc)
                       /\ Forall (fun m => Notification.timestamp m <= now acc)
                                 (notifications acc))
           (fun _ => True)).
  - intros tm acc _. apply runCallback_ordered.
  - apply List.Forall_forall. trivial.
  - simpl. split; [exact Hs|].
    eapply List.Forall_impl; [|exact Hle]. simpl. intros; lia.
Qed.

Lemma step_ordered (user : option User.t) (employer : option Employer.t)
    (s : State) (e : Event) :
  inCreationOrder (notifications s)
  /\ Forall (fun m => Notification.timestamp m <= now s) (notifications s) ->
  inCreationOrder (notifications (step user employer s e))
  /\ Forall (fun m => Notification.timestamp m <= now (step user employer s e))
            (notifications (step user employer s e)).
Proof.
  intros [Hs Hle].
  assert (Hpush : forall ty msg,
             inCreationOrder (notifications (addNotification ty msg s))
             /\ Forall (fun m => Notification.timestamp m <= now s)
                       (notifications (addNotification ty msg s))).
  { intros ty msg. simpl. split.
    - now apply (ordered_after_toast _ _ (now s)).
    - apply List.Forall_app. split; [exact Hle|].
      constructor; [simpl; unfold Date_now; lia|constructor]. }
  destruct e; cbn [step];
    try (split_ifs; unfold_handlers; split_ifs;
         solve [split; assumption | apply Hpush]).
  - simpl. split; [now apply ordered_filter|].
    apply List.Forall_forall. intros x Hx. apply List.filter_In in Hx.
    exact (proj1 (List.Forall_forall _ _) Hle x (proj1 Hx)).
  - induction ms as [|ms IH] using N.peano_ind; [split; assumption|].
    rewrite elapse_succ. now apply tick_ordered.
Qed.

(** X11. In every reachable state the toasts are listed in the order of their
    creation, and none is dated after the current time. *)
Theorem toasts_are_in_creation_order :
  forall (user : option User.t) (employer : option Employer.t) (s : State),
    reachable user employer s ->
    inCreationOrder (notifications s)
    /\ Forall (fun n => Notification.timestamp n <= now s) (notifications s).
Proof.
  intros user employer s Hreach. induction Hreach as [t0|s e _ IH].
  - split; constructor.
  - now apply step_ordered.
Qed.

Lemma toasts_are_in_creation_order_witness :
  let s := run (Some sarah) (Some retailHub)
               [ClickTab TabVouchers; ClickBuyNow vodacomAirtime; Elapse 3;
                ClickBuyNow mtnDataBundle]
               (initialState 1000) in
  inCreationOrder (notifications s).
Proof.
  intros s.
  assert (Hreach : reachable (Some sarah) (Some retailHub) s).
  { apply (reachable_step _ _ _ (ClickBuyNow mtnDataBundle)).
    apply (reachable_step _ _ _ (Elapse 3)).
    apply (reachable_step _ _ _ (ClickBuyNow vodacomAirtime)).
    apply (reachable_step _ _ _ (ClickTab TabVouchers)). constructor. }
  exact (proj1 (toasts_are_in_creation_order
                  (Some sarah) (Some retailHub) s Hreach)).
Defined.

(** X12. No event changes the catalogue or the transactions: in every
    reachable state they are [mockVouchers] and [mockTransactions]. *)
Theorem ledger_and_stock_never_change :
  forall (user : option User.t) (employer : option Employer.t) (s : State),
    reachable user employer s ->
    vouchers s = mockVouchers /\ transactions s = mockTransactions.
Proof.
  intros user employer s Hreach. induction Hreach as [t0|s e _ IH].
  - split; reflexivity.
  - assert (Hcb : forall cb acc,
               vouchers acc = mockVouchers /\ transactions acc = mockTransactions ->
               vouchers (runCallback employer cb acc) = mockVouchers
               /\ transactions (runCallback employer cb acc) = mockTransactions).
    { intros cb acc H. destruct cb as [id|i a]; [exact H|].
      unfold runCallback. unfold_handlers. split_ifs; exact H. }
    destruct e; cbn [step];
      try (split_ifs; unfold_handlers; split_ifs; exact IH).
    induction ms as [|ms IHms] using N.peano_ind; [exact IH|].
    rewrite elapse_succ. unfold tick.
    apply (fold_runCallback_preserves employer
             (fun acc => vouchers acc = mockVouchers
                         /\ transactions acc = mockTransactions)
             (fun _ => True)).
    + intros tm acc _. apply Hcb.
    + apply List.Forall_forall. trivial.
    + exact IHms.
Qed.

Lemma ledger_and_stock_never_change_witness :
  let s := run (Some sarah) (Some retailHub)
               [ClickTab TabVouchers; ClickBuyNow vodacomAirtime;
                ClickTab TabAdvance; ClickPreset 500; ClickRequestAdvance;
                Elapse 10]
               (initialState 1000) in
  vouchers s = mockVouchers /\ transactions s = mockTransactions.
Proof.
  intros s.
  assert (Hreach : reachable (Some sarah) (Some retailHub) s).
  { apply (reachable_step _ _ _ (Elapse 10)).
    apply (reachable_step _ _ _ ClickRequestAdvance).
    apply (reachable_step _ _ _ (ClickPreset 500)).
    apply (reachable_step _ _ _ (ClickTab TabAdvance)).
    apply (reachable_step _ _ _ (ClickBuyNow vodacomAirtime)).
    apply (reachable_step _ _ _ (ClickTab TabVouchers)). constructor. }
  exact (ledger_and_stock_never_change (Some sarah) (Some retailHub) s Hreach).
Defined.

(** ** Left alone, the application comes to rest *)

Section Rest.

Variable employer : option Employer.t.

Lemma elapse_add (a b : N) (s : State) :
  elapse employer (a + b) s = elapse employer a (elapse employer b s).
Proof. unfold elapse. apply N.iter_add. Qed.

(** Callbacks register removals only. *)
Lemma runCallback_new_timers (cb : Callback) (acc : State) (tm : Timer) :
  In tm (timers (runCallback employer cb acc)) ->
  In tm (timers acc) \/ isRemoval tm.
Proof.
  destruct cb as [id|i a]; [simpl; tauto|].
  rewrite (proj2 (proj2 (runCallback_ScanDone employer i a acc))).
  intros H. apply in_app_or in H. destruct H as [H|[<-|[]]]; [now left|].
  right. exact I.
Qed.

Lemma tick_scans_bounded (B : Z) (s : State) :
  (forall tm, In tm (timers s) -> isRemoval tm \/ due tm <= B) ->
  forall tm, In tm (timers (tick employer s)) -> isRemoval tm \/ due tm <= B.
Proof.
  intros H. unfold tick.
  apply (fold_runCallback_preserves employer
           (fun acc => forall tm, In tm (timers acc) -> isRemoval tm \/ due tm <= B)
           (fun _ => True)).
  - intros tm acc _ Hacc tm' Hin.
    apply runCallback_new_timers in Hin. destruct Hin as [Hin|Hrem]; auto.
  - apply List.Forall_forall. trivial.
  - simpl. intros tm Hin. apply List.filter_In in Hin. apply H, Hin.
Qed.

Lemma elapse_scans_bounded (B : Z) (ms : N) (s : State) :
  (forall tm, In tm (timers s) -> isRemoval tm \/ due tm <= B) ->
  forall tm, In tm (timers (elapse employer ms s)) -> isRemoval tm \/ due tm <= B.
Proof.
  intros H. induction ms as [|ms IH] using N.peano_ind; [exact H|].
  rewrite elapse_succ. now apply tick_scans_bounded.
Qed.

(** After two seconds no scan is in flight. *)
Lemma scans_are_over_after_two_seconds (s : State) :
  consistent s -> Forall isRemoval (timers (elapse employer 2000 s)).
Proof.
  intros Hc.
  assert (Hb : forall tm, In tm (timers s) -> isRemoval tm \/ due tm <= now s + 2000).
  { intros tm' Hin'. destruct Hc as [Htm _].
    pose proof (proj1 (List.Forall_forall _ _) Htm tm' Hin') as [_ Hk].
    unfold isRemoval. destruct (callback tm'); [left; exact I|right; exact Hk]. }
  apply List.Forall_forall. intros tm Hin.
  destruct (elapse_scans_bounded _ 2000 s Hb tm Hin) as [H|H]; [exact H|].
  exfalso.
  pose proof (elapse_consistent employer 2000 s Hc) as [Htm _].
  pose proof (proj1 (List.Forall_forall _ _) Htm tm Hin) as [Hlt _].
  rewrite now_elapse in Hlt. change (Z.of_N 2000) with 2000 in Hlt. lia.
Qed.

Lemma tick_removals_bounded (B : Z) (s : State) :
  Forall isRemoval (timers s) ->
  (forall tm, In tm (timers s) -> due tm <= B) ->
  Forall isRemoval (timers (tick employer s))
  /\ (forall tm, In tm (timers (tick employer s)) -> due tm <= B).
Proof.
  intros Hall Hb. unfold tick.
  apply (fold_runCallback_preserves employer
           (fun acc => Forall isRemoval (timers acc)
                       /\ (forall tm, In tm (timers acc) -> due tm <= B))
           isRemoval).
  - intros tm acc Htm [H1 H2].
    destruct (runCallback_removal employer tm acc Htm) as (E1 & _).
    now rewrite E1.
  - apply List.Forall_forall. intros tm Htm. apply List.filter_In in Htm.
    exact (proj1 (List.Forall_forall _ _) Hall tm (proj1 Htm)).
  - simpl. split.
    + apply List.Forall_forall. intros tm Htm. apply List.filter_In in Htm.
      exact (proj1 (List.Forall_forall _ _) Hall tm (proj1 Htm)).
    + intros tm Htm. apply List.filter_In in Htm. apply Hb, Htm.
Qed.

Lemma elapse_removals_bounded (B : Z) (ms : N) (s : State) :
  Forall isRemoval (timers s) ->
  (forall tm, In tm (timers s) -> due tm <= B) ->
  Forall isRemoval (timers (elapse employer ms s))
  /\ (forall tm, In tm (timers (elapse employer ms s)) -> due tm <= B).
Proof.
  intros Hall Hb. induction ms as [|ms IH] using N.peano_ind; [now split|].
  rewrite elapse_succ. destruct IH as [H1 H2]. now apply tick_removals_bounded.
Qed.

(** Without a scan in flight, everything is over once the clock has
    passed the last due time. *)
Lemma at_rest_without_scan (ms : N) (s : State) :
  consistent s -> Forall isRemoval (timers s) -> 5000 <= Z.of_N ms ->
  timers (elapse employer ms s) = [] /\ notifications (elapse employer ms s) = [].
Proof.
  intros Hc Hall Hms.
  assert (Hb : forall tm, In tm (timers s) -> due tm <= now s + 5000).
  { intros tm Hin. destruct Hc as [Htm _].
    pose proof (proj1 (List.Forall_forall _ _) Htm tm Hin) as [_ Hk].
    destruct (callback tm); [tauto|lia]. }
  destruct (elapse_removals_bounded _ ms s Hall Hb) as [_ Hb'].
  pose proof (elapse_consistent employer ms s Hc) as [Htm Hn].
  assert (Hnil : timers (elapse employer ms s) = []).
  { destruct (timers (elapse employer ms s)) as [|tm l] eqn:Heq; [reflexivity|].
    exfalso.
    inversion Htm as [|? ? [Hlt _] _]; subst.
    pose proof (Hb' tm (or_introl eq_refl)) as Hdue.
    rewrite now_elapse in Hlt. lia. }
  split; [exact Hnil|].
  destruct (notifications (elapse employer ms s)) as [|n l]; [reflexivity|].
  exfalso. inversion Hn as [|? ? (_ & [H|[]]) _]; subst.
  rewrite Hnil in H. exact H.
Qed.

End Rest.

(** X13. Left alone, the application comes to rest: from any reachable
    state, once 7000 ms have passed without a user event no toast is on
    display and no timer is waiting, and 5000 ms are enough when no scan is
    in flight. *)
Theorem application_comes_to_rest :
  forall (user : option User.t) (employer : option Employer.t) (s : State)
         (ms : N),
    reachable user employer s ->
    (7000 <= Z.of_N ms ->
       notifications (elapse employer ms s) = []
       /\ timers (elapse employer ms s) = [])
    /\ (Forall isRemoval (timers s) -> 5000 <= Z.of_N ms ->
          notifications (elapse employer ms s) = []
          /\ timers (elapse employer ms s) = []).
Proof.
  intros user employer s ms Hreach.
  pose proof (reachable_consistent user employer s Hreach) as Hc.
  split.
  - intros Hms.
    replace ms with ((ms - 2000) + 2000)%N by lia.
    rewrite elapse_add.
    destruct (at_rest_without_scan employer (ms - 2000) (elapse employer 2000 s))
      as [H1 H2].
    + now apply elapse_consistent.
    + now apply scans_are_over_after_two_seconds.
    + lia.
    + now split.
  - intros Hall Hms.
    destruct (at_rest_without_scan employer ms s Hc Hall Hms) as [H1 H2].
    now split.
Qed.

Lemma application_comes_to_rest_witness :
  let s := run (Some thabo) (Some techCorp)
               [ClickTab TabAdvance; ChangeAmount "500"; ClickRequestAdvance;
                ClickScan]
               (initialState 1704958200000) in
  notifications (elapse (Some techCorp) 7000 s) = []
  /\ timers (elapse (Some techCorp) 7000 s) = [].
Proof.
  intros s.
  assert (Hreach : reachable (Some thabo) (Some techCorp) s).
  { apply (reachable_step _ _ _ ClickScan).
    apply (reachable_step _ _ _ ClickRequestAdvance).
    apply (reachable_step _ _ _ (ChangeAmount "500")).
    apply (reachable_step _ _ _ (ClickTab TabAdvance)). constructor. }
  assert (Hms : 7000 <= Z.of_N 7000) by (intro H; discriminate H).
  exact (proj1 (application_comes_to_rest (Some thabo) (Some techCorp) s 7000
                  Hreach) Hms).
Defined.

(** ** Dismissing a toast *)

Lemma filter_twice {A : Type} (f : A -> bool) (l : list A) :
  List.filter f (List.filter f l) = List.filter f l.
Proof.
  induction l as [|x l IH]; [reflexivity|]. simpl.
  destruct (f x) eqn:E; [|exact IH]. simpl. now rewrite E, IH.
Qed.

Lemma filter_sublist {A : Type} (f : A -> bool) (l : list A) :
  sublist (List.filter f l) l.
Proof.
  induction l as [|x l IH]; simpl; [constructor|].
  destruct (f x); [now apply sublist_skip|now apply sublist_cons].
Qed.

(** X14. A click on a toast removes the toasts that carry its id, itself
    included, and keeps the others in their order; it cancels no timer, so
    that the removal timer of the dismissed toast keeps waiting, and a
    second click on it changes nothing. *)
Theorem click_dismisses_the_toasts_of_its_id :
  forall (user : option User.t) (employer : option Employer.t) (s : State)
         (n : Notification.t),
    reachable user employer s ->
    In n (notifications s) ->
    let s' := step user employer s (ClickToast (Notification.id n)) in
    (forall m, In m (notifications s')
               <-> In m (notifications s)
                   /\ Notification.id m <> Notification.id n)
    /\ sublist (notifications s') (notifications s)
    /\ timers s' = timers s
    /\ (exists tm, In tm (timers s')
                   /\ callback tm = RemoveNotification (Notification.id n))
    /\ step user employer s' (ClickToast (Notification.id n)) = s'.
Proof.
  intros user employer s n Hreach Hin s'.
  destruct (reachable_consistent user employer s Hreach) as [_ Hn].
  split; [|split; [|split; [reflexivity|split]]].
  - intros m. subst s'. cbn [step]. unfold removeNotification. simpl.
    rewrite List.filter_In, negb_true_iff, String.eqb_neq. reflexivity.
  - subst s'. cbn [step]. unfold removeNotification. simpl.
    apply filter_sublist.
  - destruct (proj1 (List.Forall_forall _ _) Hn n Hin) as (_ & [H|[]]).
    exists (expiryTimer n). split; [exact H|reflexivity].
  - subst s'. cbn [step]. unfold removeNotification, setNotifications. simpl.
    f_equal. apply filter_twice.
Qed.

Lemma click_dismisses_the_toasts_of_its_id_witness :
  let s := run (Some sarah) (Some retailHub)
               [ClickTab TabVouchers; ClickBuyNow vodacomAirtime;
                ClickBuyNow mtnDataBundle]
               (initialState 1000) in
  let n := newNotification success (VoucherPurchased (Voucher.name vodacomAirtime))
                           (initialState 1000) in
  In n (notifications s)
  /\ timers (step (Some sarah) (Some retailHub) s (ClickToast (Notification.id n)))
     = timers s.
Proof.
  intros s n.
  assert (Hreach : reachable (Some sarah) (Some retailHub) s).
  { apply (reachable_step _ _ _ (ClickBuyNow mtnDataBundle)).
    apply (reachable_step _ _ _ (ClickBuyNow vodacomAirtime)).
    apply (reachable_step _ _ _ (ClickTab TabVouchers)). constructor. }
  assert (Hin : In n (notifications s)) by (left; reflexivity).
  split; [exact Hin|].
  exact (proj1 (proj2 (proj2 (click_dismisses_the_toasts_of_its_id
                                (Some sarah) (Some retailHub) s n Hreach Hin)))).
Defined.

(** ** The first day of the month *)

(** With one offset throughout, this is [calculateEarnedToDate]. *)
Lemma calculateEarnedToDateAcross_same_offset (utcOffset : Z)
    (user : option User.t) (today : JsDate.t) :
  calculateEarnedToDateAcross utcOffset utcOffset user today
  = calculateEarnedToDate utcOffset user today.
Proof. reflexivity. Qed.

(** X15. On the first day of a month the days counted are the whole days in
    the time since local midnight plus the change of the offset from UTC
    since that midnight: nothing is earned while the offset has not
    changed, and a day is counted late in the evening of a first day on
    which the clocks were set back. *)
Theorem earnings_on_the_first_follow_the_clocks :
  forall (offsetToday offsetStart : Z) (u : User.t) (today : JsDate.t),
    JsDate.getDate today = 1 ->
    let lead := JsDate.msOfDay today + (offsetStart - offsetToday) in
    (calculateEarnedToDateAcross offsetToday offsetStart (Some u) today
     == inject_Z (lead / msPerDay) * 8 * User.hourlyRate u)%Q
    /\ (0 <= lead < msPerDay ->
        (calculateEarnedToDateAcross offsetToday offsetStart (Some u) today
         == 0)%Q)
    /\ (msPerDay <= lead < 2 * msPerDay ->
        (calculateEarnedToDateAcross offsetToday offsetStart (Some u) today
         == 8 * User.hourlyRate u)%Q).
Proof.
  intros offsetToday offsetStart u today Hfirst lead.
  assert (Hdays : (JsDate.getTime offsetToday today
                   - JsDate.getTime offsetStart
                       (JsDate.make (JsDate.getFullYear today)
                                    (JsDate.getMonth today) 1))
                  = lead).
  { unfold JsDate.getTime, JsDate.makeDay, JsDate.make. simpl.
    rewrite Hfirst. subst lead. ring. }
  assert (Hearned : (calculateEarnedToDateAcross offsetToday offsetStart
                       (Some u) today
                     == inject_Z (lead / msPerDay) * 8 * User.hourlyRate u)%Q).
  { unfold calculateEarnedToDateAcross. cbv zeta. rewrite Hdays. reflexivity. }
  split; [exact Hearned|]. split; intros Hlead; rewrite Hearned.
  - rewrite (Z.div_small lead msPerDay Hlead). change (inject_Z 0) with 0%Q. ring.
  - assert (Hone : lead / msPerDay = 1).
    { symmetry. apply (Z.div_unique lead msPerDay 1 (lead - msPerDay)); lia. }
    rewrite Hone. change (inject_Z 1) with 1%Q. ring.
Qed.

Lemma earnings_on_the_first_follow_the_clocks_witness :
  (calculateEarnedToDateAcross (-18000000) (-14400000) (Some thabo)
                               lateOnTheFirstOfNovember
   == 1200)%Q.
Proof.
  destruct (earnings_on_the_first_follow_the_clocks
              (-18000000) (-14400000) thabo lateOnTheFirstOfNovember eq_refl)
    as (_ & _ & Hback).
  rewrite Hback; [reflexivity|]. unfold msPerDay. simpl. lia.
Defined.

(** ** The wellness ring *)

(** X16. The percentage of the wellness ring is 0 without a user and without
    a score, and is not clamped: it lies between 0 and 100 exactly when the
    score lies between 0 and 850. *)
Theorem wellness_percentage_is_not_clamped :
  forall user : option User.t,
    (wellnessPercentage None == 0)%Q
    /\ ((forall u, user = Some u -> User.wellnessScore u = None) ->
        (wellnessPercentage user == 0)%Q)
    /\ (forall (u : User.t) (score : Q),
          user = Some u -> User.wellnessScore u = Some score ->
          (wellnessPercentage user == score / 850 * 100)%Q
          /\ ((0 <= wellnessPercentage user)%Q <-> (0 <= score)%Q)
          /\ ((wellnessPercentage user <= 100)%Q <-> (score <= 850)%Q)).
Proof.
  intros user. split; [reflexivity|]. split.
  - intros H. destruct user as [u|]; [|reflexivity].
    unfold wellnessPercentage, wellnessScoreOrZero.
    now rewrite (H u eq_refl).
  - intros u score -> Hscore.
    assert (Hp : (wellnessPercentage (Some u) == score / 850 * 100)%Q).
    { unfold wellnessPercentage, wellnessScoreOrZero, maxScore, truthy.
      rewrite Hscore.
      destruct (Qeq_bool score 0) eqn:Hz; cbn [negb]; [|reflexivity].
      apply Qeq_bool_iff in Hz. unfold Qdiv. rewrite Hz. reflexivity. }
    split; [exact Hp|]. rewrite Hp.
    assert (Hq : (score / 850 * 100 == score * (2 # 17))%Q) by field.
    rewrite Hq. split; split; intros H; lra.
Qed.

(** ** Scans of earlier instances *)

Lemma scansBelow_weaken (k k' : N) (l : list Timer) :
  (k <= k')%N -> scansBelow k l -> scansBelow k' l.
Proof.
  intros Hle. apply List.Forall_impl. intros tm.
  destruct (callback tm); [trivial|lia].
Qed.

Lemma scansBelow_removal (k : N) (l : list Timer) (d : Z) (id : string) :
  scansBelow k l ->
  scansBelow k (l ++ [{| due := d; callback := RemoveNotification id |}]).
Proof.
  intros H. apply List.Forall_app. split; [exact H|].
  constructor; [exact I|constructor].
Qed.

Section Stale.

Variable user : option User.t.
Variable employer : option Employer.t.

(** A callback of an earlier instance leaves the cells of the mounted
    screen alone. *)
Lemma runCallback_stale (k : N) (tm : Timer) (acc : State) :
  match callback tm with
  | ScanDone i _ => (i < k)%N
  | RemoveNotification _ => True
  end ->
  (advanceInstance acc = k /\ scansBelow k (timers acc)) ->
  form (runCallback employer (callback tm) acc) = form acc
  /\ scansBelow k (timers (runCallback employer (callback tm) acc)).
Proof.
  intros Htm [Hk Hl]. destruct (callback tm) as [id|i a].
  - split; [reflexivity|exact Hl].
  - assert (Hne : (i =? advanceInstance acc)%N = false).
    { apply N.eqb_neq. lia. }
    split.
    + assert (Hof : forall (set : State -> State) (s : State),
                 advanceInstance s = advanceInstance acc ->
                 ofInstance i set s = s).
      { intros set s Hs. unfold ofInstance. now rewrite Hs, Hne. }
      unfold runCallback. rewrite (Hof _ acc eq_refl).
      unfold onSuccess. rewrite (Hof _ acc eq_refl).
      unfold processAdvance. rewrite Hof by reflexivity. reflexivity.
    + rewrite (proj2 (proj2 (runCallback_ScanDone employer i a acc))).
      now apply scansBelow_removal.
Qed.

Lemma tick_stale (s : State) :
  scansBelow (advanceInstance s) (timers s) ->
  form (tick employer s) = form s
  /\ scansBelow (advanceInstance s) (timers (tick employer s)).
Proof.
  intros Hl. unfold tick.
  set (k := advanceInstance s) in *.
  apply (fold_runCallback_preserves employer
           (fun acc => form acc = form s /\ scansBelow k (timers acc))
           (fun tm => match callback tm with
                      | ScanDone i _ => (i < k)%N
                      | RemoveNotification _ => True
                      end)).
  - intros tm acc Htm [Hf Hacc].
    assert (Hk : advanceInstance acc = k).
    { unfold form in Hf. subst k. congruence. }
    destruct (runCallback_stale k tm acc Htm (conj Hk Hacc)) as [H1 H2].
    split; [congruence|exact H2].
  - apply List.Forall_forall. intros tm Htm. apply List.filter_In in Htm.
    exact (proj1 (List.Forall_forall _ _) Hl tm (proj1 Htm)).
  - split; [reflexivity|]. simpl.
    apply List.Forall_forall. intros tm Htm. apply List.filter_In in Htm.
    exact (proj1 (List.Forall_forall _ _) Hl tm (proj1 Htm)).
Qed.

Lemma elapse_stale (ms : N) (s : State) :
  scansBelow (advanceInstance s) (timers s) ->
  form (elapse employer ms s) = form s
  /\ scansBelow (advanceInstance s) (timers (elapse employer ms s)).
Proof.
  intros Hl. induction ms as [|ms [IH1 IH2]] using N.peano_ind.
  - split; [reflexivity|exact Hl].
  - rewrite elapse_succ.
    assert (Hk : advanceInstance (elapse employer ms s) = advanceInstance s).
    { unfold form in IH1. congruence. }
    rewrite <- Hk in IH2. destruct (tick_stale _ IH2) as [H1 H2].
    rewrite Hk in H2. split; [congruence|exact H2].
Qed.

(** A callback leaves the numbering of the instances alone, and registers
    removals only. *)
Lemma runCallback_scans (k : N) (cb : Callback) (acc : State) :
  advanceInstance acc = k /\ scansBelow (N.succ k) (timers acc) ->
  advanceInstance (runCallback employer cb acc) = k
  /\ scansBelow (N.succ k) (timers (runCallback employer cb acc)).
Proof.
  intros [Hk Hl]. destruct cb as [id|i a].
  - split; [exact Hk|exact Hl].
  - split.
    + unfold runCallback, onSuccess, processAdvance, ofInstance.
      split_ifs; exact Hk.
    + rewrite (proj2 (proj2 (runCallback_ScanDone employer i a acc))).
      now apply scansBelow_removal.
Qed.

Lemma tick_scans (s : State) :
  scansBelow (N.succ (advanceInstance s)) (timers s) ->
  advanceInstance (tick employer s) = advanceInstance s
  /\ scansBelow (N.succ (advanceInstance s)) (timers (tick employer s)).
Proof.
  intros Hl. unfold tick.
  apply (fold_runCallback_preserves employer
           (fun acc => advanceInstance acc = advanceInstance s
                       /\ scansBelow (N.succ (advanceInstance s)) (timers acc))
           (fun _ => True)).
  - intros tm acc _. apply runCallback_scans.
  - apply List.Forall_forall. trivial.
  - split; [reflexivity|]. simpl.
    apply List.Forall_forall. intros tm Htm. apply List.filter_In in Htm.
    exact (proj1 (List.Forall_forall _ _) Hl tm (proj1 Htm)).
Qed.

Lemma step_scans (s : State) (e : Event) :
  scansBelow (N.succ (advanceInstance s)) (timers s) ->
  scansBelow (N.succ (advanceInstance (step user employer s e)))
             (timers (step user employer s e)).
Proof.
  intros Hl.
  assert (Hscan : scansBelow (N.succ (advanceInstance s))
                    (timers s ++ [{| due := now s + 2000;
                                     callback := ScanDone (advanceInstance s)
                                                          (amount s) |}])).
  { apply List.Forall_app. split; [exact Hl|].
    constructor; [simpl; lia|constructor]. }
  destruct e; cbn [step];
    try (split_ifs; unfold_handlers; split_ifs; simpl;
         solve [exact Hl | exact Hscan | now apply scansBelow_removal
               | apply (scansBelow_weaken (N.succ (advanceInstance s)));
                 [lia|exact Hl]]).
  induction ms as [|ms IH] using N.peano_ind; [exact Hl|].
  rewrite elapse_succ. destruct (tick_scans _ IH) as [H1 H2].
  now rewrite H1.
Qed.

Lemma reachable_scans (s : State) :
  reachable user employer s ->
  scansBelow (N.succ (advanceInstance s)) (timers s).
Proof.
  intros H. induction H as [t0|s e _ IH]; [constructor|].
  now apply step_scans.
Qed.

End Stale.

(** X17. The approval of a scan started on an earlier visit of the advance
    screen does not touch the screen shown now: after a change of tab,
    whatever is typed stays, and the modal stays closed, however much time
    passes. *)
Theorem earlier_scan_leaves_the_new_form_alone :
  forall (user : option User.t) (employer : option Employer.t) (s : State)
         (tab : Tab) (typed : string) (ms : N),
    reachable user employer s ->
    Tab_eqb tab (activeTab s) = false ->
    let s' := run user employer [ClickTab tab; ChangeAmount typed; Elapse ms] s in
    activeTab s' = tab
    /\ amount s' = (if Tab_eqb tab TabAdvance then typed else "")
    /\ showBiometric s' = false
    /\ scanning s' = false.
Proof.
  intros user employer s tab typed ms Hreach Htab s'.
  pose proof (reachable_scans user employer s Hreach) as Hs.
  set (s1 := run user employer [ClickTab tab; ChangeAmount typed] s).
  assert (H1 : form s1
               = (tab, N.succ (advanceInstance s),
                  if Tab_eqb tab TabAdvance then typed else "",
                  instant, false, false)
               /\ timers s1 = timers s).
  { subst s1. unfold run. cbn [fold_left step]. rewrite Htab.
    unfold onAdvance. cbn [activeTab setActiveTab].
    destruct (Tab_eqb tab TabAdvance); split; reflexivity. }
  destruct H1 as [Hform Htimers].
  assert (Hinst : advanceInstance s1 = N.succ (advanceInstance s)).
  { unfold form in Hform. congruence. }
  assert (Hbelow : scansBelow (advanceInstance s1) (timers s1)).
  { now rewrite Hinst, Htimers. }
  destruct (elapse_stale employer ms s1 Hbelow) as [Hkept _].
  assert (Hs' : s' = elapse employer ms s1) by reflexivity.
  rewrite Hs'. rewrite Hform in Hkept. unfold form in Hkept.
  inversion Hkept. repeat split.
Qed.

Lemma earlier_scan_leaves_the_new_form_alone_witness :
  let s := run (Some thabo) (Some techCorp)
               [ClickTab TabAdvance; ChangeAmount "500"; ClickRequestAdvance;
                ClickScan; ClickTab TabDashboard]
               (initialState 1000) in
  amount (run (Some thabo) (Some techCorp)
              [ClickTab TabAdvance; ChangeAmount "250"; Elapse 2000] s)
  = "250".
Proof.
  intros s.
  assert (Hreach : reachable (Some thabo) (Some techCorp) s).
  { apply (reachable_step _ _ _ (ClickTab TabDashboard)).
    apply (reachable_step _ _ _ ClickScan).
    apply (reachable_step _ _ _ ClickRequestAdvance).
    apply (reachable_step _ _ _ (ChangeAmount "500")).
    apply (reachable_step _ _ _ (ClickTab TabAdvance)). constructor. }
  assert (Htab : Tab_eqb TabAdvance (activeTab s) = false) by reflexivity.
  exact (proj1 (proj2 (earlier_scan_leaves_the_new_form_alone
                         (Some thabo) (Some techCorp) s TabAdvance "250" 2000
                         Hreach Htab))).
Defined.

(** ** The fallback of the API service *)

Lemma includes_String (c : ascii) (s t : string) :
  includes (String c s) t = String.prefix t (String c s) || includes s t.
Proof. reflexivity. Qed.

Lemma prefix_String (c d : ascii) (t s : string) :
  String.prefix (String c t) (String d s)
  = if Ascii.ascii_dec c d then String.prefix t s else false.
Proof. reflexivity. Qed.

(** A text of digits does not start with a character that is no digit. *)
Lemma prefix_of_digits (c : ascii) (t s : string) :
  digitValue c = None -> allDigits s = true ->
  String.prefix (String c t) s = false.
Proof.
  intros Hc Hs. destruct s as [|d s]; [reflexivity|].
  rewrite prefix_String. destruct (Ascii.ascii_dec c d) as [->|_]; [|reflexivity].
  simpl in Hs. now rewrite Hc in Hs.
Qed.

Lemma includes_of_digits (c : ascii) (t s : string) :
  digitValue c = None -> allDigits s = true ->
  includes s (String c t) = false.
Proof.
  intros Hc. induction s as [|d s IH]; intros Hs; [reflexivity|].
  rewrite includes_String, (prefix_of_digits c t _ Hc Hs).
  simpl in Hs. destruct (digitValue d); [|discriminate Hs]. now apply IH.
Qed.

(** Decides the comparisons of characters that are known. *)
Ltac compare_characters :=
  repeat match goal with
         | |- context [Ascii.ascii_dec ?a ?b] =>
             let E := fresh in
             destruct (Ascii.ascii_dec a b) as [E|E];
             [try discriminate E | try (exfalso; apply E; reflexivity)];
             clear E
         end.

(** Unfolds the search for known texts in an endpoint [p ++ rest], down to
    the searches in [rest]. *)
Ltac search_endpoint :=
  match goal with
  | |- context [String.append ?p ?rest] =>
      let e := eval cbv [String.append] in (String.append p rest) in
      change (String.append p rest) with e
  end;
  cbn [includes String.prefix]; compare_characters.

(** X18. While the backend cannot be reached, the wellness score of a user
    whose id is a number is answered with a bare [{ success: true }]: the
    mock score is kept under ['/wellness-score'], which the endpoint
    ['/wellness/<id>'] does not contain. *)
Theorem offline_wellness_score_is_a_bare_success :
  forall userId : string,
    allDigits userId = true ->
    ApiService.getWellnessScore userId None = Reply true None None.
Proof.
  intros userId Hid.
  unfold ApiService.getWellnessScore, ApiService.request,
    ApiService.getMockResponse.
  search_endpoint.
  rewrite ?(fun c t H => prefix_of_digits c t _ H Hid),
          ?(fun c t H => includes_of_digits c t _ H Hid) by reflexivity.
  reflexivity.
Qed.

Lemma offline_wellness_score_is_a_bare_success_witness :
  allDigits (User.id thabo) = true
  /\ ApiService.getWellnessScore (User.id thabo) None = Reply true None None.
Proof.
  split; [reflexivity|].
  apply (offline_wellness_score_is_a_bare_success (User.id thabo)). reflexivity.
Defined.

(** X19. While the backend cannot be reached, the transactions of a user
    whose id is a number are answered with the whole of [mockTransactions],
    whatever the id, and so is a request for an advance; all of them are
    transactions of user 1. *)
Theorem offline_transactions_are_not_filtered :
  forall userId : string,
    allDigits userId = true ->
    ApiService.getTransactions userId None = TransactionList mockTransactions
    /\ ApiService.requestAdvance None = TransactionList mockTransactions
    /\ Forall (fun t => Transaction.userId t = "1") mockTransactions.
Proof.
  intros userId Hid. split; [|split; [reflexivity|]].
  - unfold ApiService.getTransactions, ApiService.request,
      ApiService.getMockResponse.
    search_endpoint.
    rewrite ?(fun c t H => prefix_of_digits c t _ H Hid),
            ?(fun c t H => includes_of_digits c t _ H Hid) by reflexivity.
    reflexivity.
  - repeat constructor.
Qed.

Lemma offline_transactions_are_not_filtered_witness :
  allDigits (User.id sarah) = true
  /\ ApiService.getTransactions (User.id sarah) None
     = TransactionList mockTransactions.
Proof.
  split; [reflexivity|].
  apply (offline_transactions_are_not_filtered (User.id sarah)). reflexivity.
Defined.

(** X20. While the backend cannot be reached, the vouchers are answered with
    the whole of [mockVouchers] whatever the category asked for, unless the
    category contains ['/auth/login'], which is answered with the mock
    session; a purchase is answered with the catalogue too. *)
Theorem offline_vouchers_ignore_the_category :
  forall (category : option string) (voucherId userId : string),
    ApiService.getVouchers category None
    = (if match category with
          | Some c => includes c "/auth/login"
          | None => false
          end
       then Reply true (Some "mock-jwt-token") (Some thabo)
       else VoucherList mockVouchers)
    /\ ApiService.purchaseVoucher voucherId userId None = VoucherList mockVouchers.
Proof.
  intros category voucherId userId. split; [|reflexivity].
  unfold ApiService.getVouchers, ApiService.request, ApiService.getMockResponse.
  destruct category as [c|]; [|reflexivity].
  destruct (String.eqb_spec c "") as [->|_]; [reflexivity|].
  search_endpoint.
  destruct (includes c "/auth/login"); reflexivity.
Qed.

(** ** Signing in and out *)

(** X21. While the backend cannot be reached every sign-in succeeds,
    whatever the email and the password: the session is the one of the
    first mock user with the mock token, and the administrator's dashboard
    is shown exactly when the email contains ['admin']. *)
Theorem offline_login_accepts_everyone :
  forall (email password : string) (app : App.t),
    let result := login email password None app in
    fst result = true
    /\ App.user (snd result) = Some thabo
    /\ App.token (snd result) = Some "mock-jwt-token"
    /\ App.apiToken (snd result) = Some "mock-jwt-token"
    /\ App.loading (snd result) = false
    /\ screen (snd result)
       = (if includes email "admin" then AdminDashboard else UserScreens)
    /\ notifications (App.ui (snd result))
       = notifications (App.ui app)
         ++ [newNotification success (Text "Login successful!") (App.ui app)].
Proof.
  intros email password app. cbv zeta. 
  unfold login, ApiService.login, ApiService.request.
  change (ApiService.getMockResponse "/auth/login")
    with (Reply true (Some "mock-jwt-token") (Some thabo)).
  cbv iota. cbn [fst snd].
  repeat split.
Qed.

(** X22. A sign-in that fails leaves the session as it was and ends with
    [loading] off; it shows the error toast when the response is [null],
    and nothing at all when the response is an object without a true
    [success], such as a rejection: a sign-in that succeeds shows the
    success toast. *)
Theorem login_outcomes :
  forall (email password : string) (fetched : option Response) (app : App.t),
    let response := ApiService.login email password fetched in
    let result := login email password fetched app in
    let shown := notifications (App.ui (snd result)) in
    App.loading (snd result) = false
    /\ (fst result = true <-> exists tok u, response = Reply true tok u)
    /\ (fst result = false ->
        App.user (snd result) = App.user app
        /\ App.token (snd result) = App.token app
        /\ App.apiToken (snd result) = App.apiToken app
        /\ App.isAdmin (snd result) = App.isAdmin app
        /\ shown
           = notifications (App.ui app)
             ++ match response with
                | JsonNull =>
                    [newNotification error
                       (Text "Login failed. Please try again.") (App.ui app)]
                | _ => []
                end).
Proof.
  intros email password fetched app response result shown.
  subst shown result. unfold login. fold response.
  destruct response as [|[] tok u|l|l|q m]; cbn [fst snd].
  all: split; [reflexivity|]; split.
  all: try (split; [discriminate|intros (tok' & u' & H); discriminate H]).
  all: try (intros _; repeat split; cbn; now rewrite ?app_nil_r).
  - split; [intros _; now exists tok, u|reflexivity].
  - discriminate.
Qed.

(** X23. Signing out shows the login screen, forgets the token in the
    application and in the API service, returns to the dashboard tab and
    shows the toast; the timers keep waiting. *)
Theorem logout_ends_the_session :
  forall app : App.t,
    let app' := logout app in
    screen app' = LoginScreen
    /\ App.token app' = None /\ App.apiToken app' = None
    /\ App.isAdmin app' = false
    /\ activeTab (App.ui app') = TabDashboard
    /\ amount (App.ui app') = (if Tab_eqb TabDashboard (activeTab (App.ui app))
                               then amount (App.ui app) else "")
    /\ notifications (App.ui app')
       = notifications (App.ui app)
         ++ [newNotification info (Text "Logged out successfully") (App.ui app)]
    /\ incl (timers (App.ui app)) (timers (App.ui app')).
Proof.
  intros app. cbv zeta. unfold logout, setUi, setSession, screen. cbn.
  destruct (activeTab (App.ui app)) eqn:Htab; cbn; rewrite ?Htab;
    repeat split; try (intros tm Htm; apply in_or_app; now left).
Qed.

(** X24. Signing out while a scan is in flight does not stop it: when the
    scan timer falls due the approval toast is shown, on the login
    screen. *)
Theorem logout_during_scan_still_approves :
  forall (user : option User.t) (employer : option Employer.t) (app : App.t)
         (i : N) (a : string) (d : N),
    reachable user employer (App.ui app) ->
    In {| due := now (App.ui app) + Z.of_N (N.succ d); callback := ScanDone i a |}
       (timers (App.ui app)) ->
    let later := setUi (elapse employer (N.succ d)) (logout app) in
    screen later = LoginScreen
    /\ In (approvalToast employer a (now (App.ui app) + Z.of_N (N.succ d)))
          (notifications (App.ui later)).
Proof.
  intros user employer app i a d Hreach Hin later. split; [reflexivity|].
  subst later. unfold setUi. cbn [App.ui].
  set (s' := App.ui (logout app)).
  assert (Hc : consistent s').
  { subst s'. unfold logout, setUi. cbn [App.ui setSession].
    apply addNotification_consistent.
    pose proof (reachable_consistent user employer _ Hreach) as Hc.
    destruct (Tab_eqb TabDashboard (activeTab (App.ui app))); exact Hc. }
  assert (Hnow : now s' = now (App.ui app)).
  { subst s'. unfold logout, setUi. cbn [App.ui setSession].
    destruct (Tab_eqb TabDashboard (activeTab (App.ui app))); reflexivity. }
  rewrite <- Hnow. apply (pending_scan_fires employer d s' i a Hc).
  rewrite Hnow. subst s'. unfold logout, setUi. cbn [App.ui setSession].
  destruct (Tab_eqb TabDashboard (activeTab (App.ui app)));
    simpl; apply in_or_app; now left.
Qed.

Lemma logout_during_scan_still_approves_witness :
  let s := run (Some thabo) (Some techCorp)
               [ClickTab TabAdvance; ChangeAmount "500"; ClickRequestAdvance;
                ClickScan]
               (initialState 1704958200000) in
  let app := {| App.user := Some thabo; App.token := Some "mock-jwt-token";
                App.isAdmin := false; App.loading := false;
                App.apiToken := Some "mock-jwt-token"; App.ui := s |} in
  In (approvalToast (Some techCorp) "500" 1704958202000)
     (notifications
        (App.ui (setUi (elapse (Some techCorp) 2000) (logout app)))).
Proof.
  intros s app.
  assert (Hreach : reachable (Some thabo) (Some techCorp) (App.ui app)).
  { apply (reachable_step _ _ _ ClickScan).
    apply (reachable_step _ _ _ ClickRequestAdvance).
    apply (reachable_step _ _ _ (ChangeAmount "500")).
    apply (reachable_step _ _ _ (ClickTab TabAdvance)). constructor. }
  assert (Hin : In {| due := now (App.ui app) + Z.of_N (N.succ 1999);
                      callback := ScanDone 1 "500" |}
                   (timers (App.ui app))).
  { left. reflexivity. }
  exact (proj2 (logout_during_scan_still_approves
                  (Some thabo) (Some techCorp) app 1 "500" 1999 Hreach Hin)).
Defined.
